(** * The chat view of tt-a1i/gpt: the script block of the conversation view

    The view component (src/unnamed/part_000, a Vue single-file component)
    sends prompts to the chat endpoint, merges the streamed chunks into the
    transcript held by the chat store, and offers stop, regenerate, delete,
    clear and export.

    The embedding is shallow.  The reactive refs and the module-level
    [controller] become fields of a [View] record that every function
    threads explicitly; calls on collaborators (the chat store, the API
    client, the dialog and scroll helpers) are also appended to a trace, so
    that their order can be stated.  An [async] function is cut at its
    [await]: the part that runs synchronously up to the [await], the
    download-progress handler the API client calls back, and the parts that
    run once the awaited promise is fulfilled or rejected are separate
    functions over the same [View] and the same closure variables. *)

From stdpp Require Import list strings.
From Stdlib Require Import ZArith Lia.

Open Scope Z_scope.

(** ** JavaScript strings and the built-ins the view calls on them *)

Module JS.

(** A JavaScript string is a sequence of UTF-16 code units. *)
Abbreviation jsstring := (list N).

(** A source literal made of ASCII characters only. *)
Definition lit (s : string) : jsstring :=
  map Ascii.N_of_ascii (String.list_ascii_of_string s).

(** The line feed, ['\n']. *)
Definition LF : N := 10%N.

(** Truthiness of a string: only the empty string is falsy. *)
Definition truthy (s : jsstring) : bool :=
  match s with [] => false | _ :: _ => true end.

(** [a === b] on two strings. *)
Definition strictEq (a b : jsstring) : bool := bool_decide (a = b).

(** [a === b] where [a] may be [undefined] and [b] is a string. *)
Definition strictEqU (a : option jsstring) (b : jsstring) : bool :=
  match a with Some x => strictEq x b | None => false end.

(** [ToString] of a value that is a string or [undefined]. *)
Definition ToString (v : option jsstring) : jsstring :=
  match v with Some x => x | None => lit "undefined" end.

(** [a + b] where [a] is a string or [undefined] and [b] a string. *)
Definition add (a : option jsstring) (b : jsstring) : jsstring :=
  ToString a ++ b.

(** ECMAScript's clamping of [x] between [lower] and [upper]. *)
Definition clamp (x lower upper : Z) : Z := Z.min (Z.max x lower) upper.

(** [StringLastIndexOf] for a search string of one code unit: the
    candidates [fromIndex], [fromIndex - 1], ..., [0], in that order. *)
Fixpoint StringLastIndexOf (S : jsstring) (c : N) (fromIndex : nat) : Z :=
  if bool_decide (S !! fromIndex = Some c) then Z.of_nat fromIndex
  else match fromIndex with
       | O => -1
       | Datatypes.S i => StringLastIndexOf S c i
       end.

(** [S.lastIndexOf(c, position)] for a search string of one code unit. *)
Definition lastIndexOf (S : jsstring) (c : N) (position : Z) : Z :=
  let len := Z.of_nat (length S) in
  let start := clamp position 0 (len - 1) in
  if start <? 0 then -1 else StringLastIndexOf S c (Z.to_nat start).

(** [S.substring(start)], the end index left out. *)
Definition substring (S : jsstring) (start : Z) : jsstring :=
  let len := Z.of_nat (length S) in
  drop (Z.to_nat (clamp start 0 len)) S.

(** The code units [trim] strips: ECMAScript's WhiteSpace and
    LineTerminator productions. *)
Definition isWhiteSpace (c : N) : bool :=
  bool_decide (c ∈ [9; 10; 11; 12; 13; 32; 160; 5760;
                    8192; 8193; 8194; 8195; 8196; 8197; 8198; 8199;
                    8200; 8201; 8202; 8232; 8233; 8239; 8287; 12288;
                    65279]%N).

Fixpoint trimStart (S : jsstring) : jsstring :=
  match S with
  | c :: S' => if isWhiteSpace c then trimStart S' else S
  | [] => []
  end.

Definition trimEnd (S : jsstring) : jsstring :=
  reverse (trimStart (reverse S)).

Definition trim (S : jsstring) : jsstring := trimEnd (trimStart S).

(** [a[i]] on an array, [undefined] outside of it. *)
Definition at_index {A} (a : list A) (i : Z) : option A :=
  if 0 <=? i then a !! Z.to_nat i else None.

End JS.

Import JS.

(** ** The records of the [Chat] namespace

    The declarations of the namespace are not in the sources at hand; the
    fields are those the object literals of the view write and read.  An
    optional field, or one the view tests for presence, is an [option]:
    [None] stands for [undefined] (an absent key) and for [null]. *)

Module ConversationRequest.

Record t := mk {
  conversationId : option jsstring;
  parentMessageId : option jsstring
}.

(** The object literal [{}]. *)
Definition empty : t := mk None None.

End ConversationRequest.

Module RequestOptions.

Record t := mk {
  prompt : jsstring;
  options : option ConversationRequest.t
}.

End RequestOptions.

(** [Chat.Chat], one message of the transcript.  The user's message is
    written without a [loading] key. *)
Module Message.

Record t := mk {
  dateTime : jsstring;
  text : jsstring;
  inversion : bool;
  error : bool;
  loading : option bool;
  conversationOptions : option ConversationRequest.t;
  requestOptions : RequestOptions.t
}.

End Message.

(** [Partial<Chat.Chat>], the argument of [updateChatSome]: the keys that
    are present. *)
Module Partial.

Record t := mk {
  dateTime : option jsstring;
  text : option jsstring;
  inversion : option bool;
  error : option bool;
  loading : option bool;
  conversationOptions : option (option ConversationRequest.t);
  requestOptions : option RequestOptions.t
}.

(** [{ loading: false }] *)
Definition loading_false : t :=
  mk None None None None (Some false) None None.

(** [{ text, error, loading }] *)
Definition text_error_loading (x : jsstring) (e l : bool) : t :=
  mk None (Some x) None (Some e) (Some l) None None.

(** [{ ...m, ...p }] *)
Definition spread (m : Message.t) (p : t) : Message.t :=
  Message.mk
    (default (Message.dateTime m) (dateTime p))
    (default (Message.text m) (text p))
    (default (Message.inversion m) (inversion p))
    (default (Message.error m) (error p))
    (match loading p with Some b => Some b | None => Message.loading m end)
    (default (Message.conversationOptions m) (conversationOptions p))
    (default (Message.requestOptions m) (requestOptions p)).

End Partial.

(** [Chat.ConversationResponse], the object one streamed line decodes to.
    Every key may be missing from the decoded object; a key that is
    present holds a value of its declared type. *)
Module ConversationResponse.

Record choice := mk_choice { finish_reason : option jsstring }.

Record detail_t := mk_detail { choices : option (list choice) }.

Record t := mk {
  conversationId : option jsstring;
  detail : option detail_t;
  id : option jsstring;
  text : option jsstring
}.

End ConversationResponse.

(** What the view reads of a caught error: its [message], if it has one.
    The value a rejected call throws is taken to be an object. *)
Module Error.

Record t := mk { message : option jsstring }.

End Error.

(** ** The chat store

    The store and the [useChat] hook are not in the sources at hand. *)

Module Store.

(** Modelled from the spec: the chat store's transcript and the operations
    the view calls on it, which are missing from the sources.  The spec
    gives "an ordered list of message records" with "index-based
    addressing" and the lifecycle "create-on-send / mutate-on-stream /
    delete-on-user-action".  The transcript is that of the view's own
    [uuid]; an index outside the list addresses no message, and an update
    there leaves the list as it is. *)
Definition addChat (chat : Message.t) (data : list Message.t)
  : list Message.t :=
  data ++ [chat].

(** Modelled from the spec: reading the message at an index of the
    transcript (missing from the sources), nothing outside of it. *)
Definition getChatByUuidAndIndex (index : Z) (data : list Message.t)
  : option Message.t :=
  at_index data index.

(** Modelled from the spec: replacing the message at an index of the
    transcript (missing from the sources). *)
Definition updateChat (index : Z) (chat : Message.t) (data : list Message.t)
  : list Message.t :=
  if 0 <=? index then <[Z.to_nat index := chat]> data else data.

(** Modelled from the spec: overwriting some keys of the message at an
    index of the transcript (missing from the sources). *)
Definition updateChatSome (index : Z) (chat : Partial.t)
    (data : list Message.t) : list Message.t :=
  match getChatByUuidAndIndex index data with
  | Some m => updateChat index (Partial.spread m chat) data
  | None => data
  end.

(** Modelled from the spec: deleting the message at an index of the
    transcript (missing from the sources). *)
Definition deleteChatByUuid (index : Z) (data : list Message.t)
  : list Message.t :=
  if 0 <=? index then delete (Z.to_nat index) data else data.

(** Modelled from the spec: emptying the transcript (missing from the
    sources). *)
Definition clearChatByUuid (data : list Message.t) : list Message.t := [].

End Store.

(** ** The state of the view and its calls on collaborators *)

(** The argument of [fetchChatAPIProcess], the handler apart.  [signal] is
    the identity of the [AbortController] whose signal is passed;
    [options] is the content of the options object at the call. *)
Module Request.

Record t := mk {
  prompt : jsstring;
  options : ConversationRequest.t;
  signal : nat
}.

End Request.

(** The confirmation dialogs the view opens. *)
Inductive dialog : Type :=
  | ExportImage
  | DeleteMessage (index : Z)
  | ClearChat.

(** A call on a collaborator. *)
Inductive call : Type :=
  | NewAbortController (c : nat)
  | Abort (c : nat)
  | AddChat (chat : Message.t)
  | UpdateChat (index : Z) (chat : Message.t)
  | UpdateChatSome (index : Z) (chat : Partial.t)
  | DeleteChatByUuid (index : Z)
  | ClearChatByUuid
  | ScrollToBottom
  | ScrollToBottomIfAtBottom
  | FetchChatAPIProcess (r : Request.t)
  | DialogWarning (d : dialog).

(** The mutable state the script block works on.

    - [dataSources]: the transcript of the view's [uuid] in the chat store
      (the computed [dataSources] reads it);
    - [prompt], [loading], [usingContext]: the refs of these names;
    - [controller]: the [AbortController] the module-level variable
      refers to; controllers are numbered in the order of their creation
      and [aborted] holds the [signal.aborted] flag of each;
    - [pending]: how many promises returned by [fetchChatAPIProcess] are
      not settled yet, that is, the chat requests in flight;
    - [trace]: the calls made so far, oldest first. *)
Record View : Type := mkView {
  dataSources : list Message.t;
  prompt : jsstring;
  loading : bool;
  usingContext : bool;
  controller : nat;
  aborted : list bool;
  pending : nat;
  trace : list call
}.

Definition set_dataSources (f : list Message.t -> list Message.t) (s : View)
  : View :=
  mkView (f (dataSources s)) (prompt s) (loading s) (usingContext s)
         (controller s) (aborted s) (pending s) (trace s).

Definition set_prompt (v : jsstring) (s : View) : View :=
  mkView (dataSources s) v (loading s) (usingContext s)
         (controller s) (aborted s) (pending s) (trace s).

Definition set_loading (v : bool) (s : View) : View :=
  mkView (dataSources s) (prompt s) v (usingContext s)
         (controller s) (aborted s) (pending s) (trace s).

Definition set_pending (f : nat -> nat) (s : View) : View :=
  mkView (dataSources s) (prompt s) (loading s) (usingContext s)
         (controller s) (aborted s) (f (pending s)) (trace s).

Definition emit (c : call) (s : View) : View :=
  mkView (dataSources s) (prompt s) (loading s) (usingContext s)
         (controller s) (aborted s) (pending s) (trace s ++ [c]).

(** [controller = new AbortController()] *)
Definition newAbortController (s : View) : View :=
  let c := length (aborted s) in
  emit (NewAbortController c)
    (mkView (dataSources s) (prompt s) (loading s) (usingContext s)
            c (aborted s ++ [false]) (pending s) (trace s)).

(** [controller.abort()] *)
Definition abort (s : View) : View :=
  emit (Abort (controller s))
    (mkView (dataSources s) (prompt s) (loading s) (usingContext s)
            (controller s) (<[controller s := true]> (aborted s))
            (pending s) (trace s)).

Definition addChat (chat : Message.t) (s : View) : View :=
  emit (AddChat chat) (set_dataSources (Store.addChat chat) s).

Definition updateChat (index : Z) (chat : Message.t) (s : View) : View :=
  emit (UpdateChat index chat) (set_dataSources (Store.updateChat index chat) s).

Definition updateChatSome (index : Z) (chat : Partial.t) (s : View) : View :=
  emit (UpdateChatSome index chat)
    (set_dataSources (Store.updateChatSome index chat) s).

Definition getChatByUuidAndIndex (index : Z) (s : View) : option Message.t :=
  Store.getChatByUuidAndIndex index (dataSources s).

Definition deleteChatByUuid (index : Z) (s : View) : View :=
  emit (DeleteChatByUuid index)
    (set_dataSources (Store.deleteChatByUuid index) s).

Definition clearChatByUuid (s : View) : View :=
  emit ClearChatByUuid (set_dataSources Store.clearChatByUuid s).

Definition scrollToBottom (s : View) : View := emit ScrollToBottom s.

Definition scrollToBottomIfAtBottom (s : View) : View :=
  emit ScrollToBottomIfAtBottom s.

Definition dialog_warning (d : dialog) (s : View) : View :=
  emit (DialogWarning d) s.

(** The call [fetchChatAPIProcess({ prompt, options, signal, ... })]: the
    request is issued and its promise is pending. *)
Definition fetchChatAPIProcess (r : Request.t) (s : View) : View :=
  emit (FetchChatAPIProcess r) (set_pending S s).

(** The promise of a request settles: one request less is in flight. *)
Definition settle (s : View) : View := set_pending Nat.pred s.

(** The requests issued so far, oldest first. *)
Definition requests (s : View) : list Request.t :=
  omap (fun c => match c with FetchChatAPIProcess r => Some r | _ => None end)
       (trace s).

(** [dataSources.value.length - 1] *)
Definition lastIndex (s : View) : Z := Z.of_nat (length (dataSources s)) - 1.

(** [conversationList]: the messages that are not the user's and carry
    conversation options. *)
Definition conversationList (s : View) : list Message.t :=
  filter (fun item => negb (Message.inversion item)
                      && bool_decide (is_Some (Message.conversationOptions item)) = true)
         (dataSources s).

(** The refresh fix of the script block: every message still marked as
    loading is marked as not loading. *)
Definition resetLoading (s : View) : View :=
  foldl (fun s' '(index, item) =>
           if bool_decide (Message.loading item = Some true)
           then updateChatSome (Z.of_nat index) Partial.loading_false s'
           else s')
        s (imap pair (dataSources s)).

(** The view as the script block sets it up over the stored transcript
    [data]: the first controller, nothing typed, nothing loading. *)
Definition setup (usingContext0 : bool) (data : list Message.t) : View :=
  resetLoading
    (newAbortController (mkView data [] false usingContext0 0%nat [] 0%nat [])).

(** The variables the closures of one send share: [message], [options]
    and, inside the [try], [lastText]. *)
Record Closure : Type := mkClosure {
  message : jsstring;
  options : ConversationRequest.t;
  lastText : option jsstring
}.

(** How the synchronous part of an [async] function ends: it returns, it
    throws a [TypeError], or it waits for the request it has issued. *)
Inductive Outcome : Type :=
  | Returned
  | ThrewTypeError
  | Awaiting (k : Closure).

(** The lines that pick the text to decode out of [responseText]. *)
Definition lastChunk (responseText : jsstring) : jsstring :=
  let lastIndex :=
    lastIndexOf responseText LF (Z.of_nat (length responseText) - 2) in
  let chunk := responseText in
  if bool_decide (lastIndex ≠ -1) then substring responseText lastIndex
  else chunk.

(** [data.detail.choices[0].finish_reason]; [None] when the evaluation
    throws a [TypeError] (no [detail], no [choices], no first choice). *)
Definition finish_reason_of (data : ConversationResponse.t)
  : option (option jsstring) :=
  match ConversationResponse.detail data with
  | None => None
  | Some d =>
      match ConversationResponse.choices d with
      | None => None
      | Some cs =>
          match at_index cs 0 with
          | None => None
          | Some c => Some (ConversationResponse.finish_reason c)
          end
      end
  end.

(** [{ prompt: message, options: { ...options } }] *)
Definition requestOptionsOf (message0 : jsstring)
    (options0 : ConversationRequest.t) : RequestOptions.t :=
  RequestOptions.mk message0 (Some options0).

(** The text of the placeholder, ['思考中']. *)
Definition thinking : jsstring := [24605; 32771; 20013]%N.

Section Script.

(** [import.meta.env.VITE_GLOB_OPEN_LONG_REPLY === 'true'] *)
Variable openLongReply : bool.

(** [JSON.parse] on a response chunk, read at the type the view gives it,
    [Chat.ConversationResponse]; [None] when it throws, and also when it
    gives [null], on which the first property access of the handler
    throws inside the same [try]. *)
Variable JSON_parse : jsstring -> option ConversationResponse.t.

(** The translation function of the locales. *)
Variable t : string -> jsstring.

(** *** [onConversation] *)

(** [fetchChatAPIOnce] of [onConversation], up to its [await]. *)
Definition onConversation_fetchChatAPIOnce (k : Closure) (s : View) : View :=
  fetchChatAPIProcess (Request.mk (message k) (options k) (controller s)) s.

(** The [onDownloadProgress] handler of [onConversation]; [now] is what
    [new Date().toLocaleString()] gives when it runs. *)
Definition onConversation_onDownloadProgress (k : Closure) (now : jsstring)
    (responseText : jsstring) (s : View) : Closure * View :=
  let chunk := lastChunk responseText in
  match JSON_parse chunk with
  | None => (k, s)
  | Some data =>
      let s :=
        updateChat (lastIndex s)
          (Message.mk now
             (add (lastText k) (default [] (ConversationResponse.text data)))
             false false (Some true)
             (Some (ConversationRequest.mk
                      (ConversationResponse.conversationId data)
                      (ConversationResponse.id data)))
             (requestOptionsOf (message k) (options k)))
          s in
      if openLongReply then
        match finish_reason_of data with
        | None => (k, s)
        | Some reason =>
            if strictEqU reason (lit "length") then
              let k :=
                mkClosure []
                  (ConversationRequest.mk
                     (ConversationRequest.conversationId (options k))
                     (ConversationResponse.id data))
                  (ConversationResponse.text data) in
              (k, onConversation_fetchChatAPIOnce k s)
            else (k, scrollToBottomIfAtBottom s)
        end
      else (k, scrollToBottomIfAtBottom s)
  end.

(** [fetchChatAPIOnce] of [onConversation], after its [await]. *)
Definition onConversation_fetchChatAPIOnce_fulfilled (s : View) : View :=
  let s := settle s in
  updateChatSome (lastIndex s) Partial.loading_false s.

(** [onConversation] up to its [await]; [now1] and [now2] are the two
    readings of the clock. *)
Definition onConversation (now1 now2 : jsstring) (s : View)
  : Outcome * View :=
  let message := prompt s in
  if loading s then (Returned, s)
  else if negb (truthy message) || strictEq (trim message) [] then
    (Returned, s)
  else
    let s := newAbortController s in
    let s :=
      addChat
        (Message.mk now1 message true false None None
           (RequestOptions.mk message None))
        s in
    let s := scrollToBottom s in
    let s := set_loading true s in
    let s := set_prompt [] s in
    let options := ConversationRequest.empty in
    let lastContext :=
      last (conversationList s) ≫= Message.conversationOptions in
    let options :=
      match lastContext with
      | Some c => if usingContext s then c else options
      | None => options
      end in
    let s :=
      addChat
        (Message.mk now2 thinking false false (Some true) None
           (requestOptionsOf message options))
        s in
    let s := scrollToBottom s in
    let k := mkClosure message options (Some []) in
    (Awaiting k, onConversation_fetchChatAPIOnce k s).

(** [handleSubmit] *)
Definition handleSubmit (now1 now2 : jsstring) (s : View) : Outcome * View :=
  onConversation now1 now2 s.

(** [onConversation] from the fulfilment of the awaited promise on. *)
Definition onConversation_fulfilled (s : View) : View :=
  let s := onConversation_fetchChatAPIOnce_fulfilled s in
  set_loading false s.

(** [onConversation] from the rejection of the awaited promise on: the
    [catch] block and the [finally] block. *)
Definition onConversation_rejected (k : Closure) (now : jsstring)
    (error : Error.t) (s : View) : View :=
  let s := settle s in
  let errorMessage := default (t "common.wrong") (Error.message error) in
  if strictEqU (Error.message error) (lit "canceled") then
    let s := updateChatSome (lastIndex s) Partial.loading_false s in
    let s := scrollToBottomIfAtBottom s in
    set_loading false s
  else
    let currentChat := getChatByUuidAndIndex (lastIndex s) s in
    match currentChat with
    | Some chat =>
        if truthy (Message.text chat)
           && negb (strictEq (Message.text chat) []) then
          let s :=
            updateChatSome (lastIndex s)
              (Partial.text_error_loading
                 (Message.text chat ++ [LF] ++ lit "[" ++ errorMessage
                    ++ lit "]")
                 false false)
              s in
          set_loading false s
        else
          let s :=
            updateChat (lastIndex s)
              (Message.mk now errorMessage false true (Some false) None
                 (requestOptionsOf (message k) (options k)))
              s in
          let s := scrollToBottomIfAtBottom s in
          set_loading false s
    | None =>
        let s :=
          updateChat (lastIndex s)
            (Message.mk now errorMessage false true (Some false) None
               (requestOptionsOf (message k) (options k)))
            s in
        let s := scrollToBottomIfAtBottom s in
        set_loading false s
    end.

(** *** [onRegenerate] *)

(** [fetchChatAPIOnce] of [onRegenerate], up to its [await]. *)
Definition onRegenerate_fetchChatAPIOnce (k : Closure) (s : View) : View :=
  fetchChatAPIProcess (Request.mk (message k) (options k) (controller s)) s.

(** The [onDownloadProgress] handler of [onRegenerate]. *)
Definition onRegenerate_onDownloadProgress (index : Z) (k : Closure)
    (now : jsstring) (responseText : jsstring) (s : View) : Closure * View :=
  let chunk := lastChunk responseText in
  match JSON_parse chunk with
  | None => (k, s)
  | Some data =>
      let s :=
        updateChat index
          (Message.mk now
             (add (lastText k) (default [] (ConversationResponse.text data)))
             false false (Some true)
             (Some (ConversationRequest.mk
                      (ConversationResponse.conversationId data)
                      (ConversationResponse.id data)))
             (requestOptionsOf (message k) (options k)))
          s in
      if openLongReply then
        match finish_reason_of data with
        | None => (k, s)
        | Some reason =>
            if strictEqU reason (lit "length") then
              let k :=
                mkClosure []
                  (ConversationRequest.mk
                     (ConversationRequest.conversationId (options k))
                     (ConversationResponse.id data))
                  (ConversationResponse.text data) in
              (k, onRegenerate_fetchChatAPIOnce k s)
            else (k, s)
        end
      else (k, s)
  end.

(** [fetchChatAPIOnce] of [onRegenerate], after its [await]. *)
Definition onRegenerate_fetchChatAPIOnce_fulfilled (index : Z) (s : View)
  : View :=
  let s := settle s in
  updateChatSome index Partial.loading_false s.

(** [onRegenerate] up to its [await]. *)
Definition onRegenerate (index : Z) (now : jsstring) (s : View)
  : Outcome * View :=
  if loading s then (Returned, s)
  else
    let s := newAbortController s in
    match at_index (dataSources s) index with
    | None => (ThrewTypeError, s)
    | Some item =>
        let requestOptions := Message.requestOptions item in
        let message := RequestOptions.prompt requestOptions in
        let options := ConversationRequest.empty in
        let options :=
          match RequestOptions.options requestOptions with
          | Some o => o
          | None => options
          end in
        let s := set_loading true s in
        let s :=
          updateChat index
            (Message.mk now [] false false (Some true) None
               (requestOptionsOf message options))
            s in
        let k := mkClosure message options (Some []) in
        (Awaiting k, onRegenerate_fetchChatAPIOnce k s)
    end.

(** [onRegenerate] from the fulfilment of the awaited promise on. *)
Definition onRegenerate_fulfilled (index : Z) (s : View) : View :=
  let s := onRegenerate_fetchChatAPIOnce_fulfilled index s in
  set_loading false s.

(** [onRegenerate] from the rejection of the awaited promise on. *)
Definition onRegenerate_rejected (index : Z) (k : Closure) (now : jsstring)
    (error : Error.t) (s : View) : View :=
  let s := settle s in
  if strictEqU (Error.message error) (lit "canceled") then
    let s := updateChatSome index Partial.loading_false s in
    set_loading false s
  else
    let errorMessage := default (t "common.wrong") (Error.message error) in
    let s :=
      updateChat index
        (Message.mk now errorMessage false true (Some false) None
           (requestOptionsOf (message k) (options k)))
        s in
    set_loading false s.

(** *** The other actions *)

(** [handleExport], up to the dialog it opens. *)
Definition handleExport (s : View) : View :=
  if loading s then s else dialog_warning ExportImage s.

(** [handleDelete] *)
Definition handleDelete (index : Z) (s : View) : View :=
  if loading s then s else dialog_warning (DeleteMessage index) s.

(** [onPositiveClick] of the dialog of [handleDelete]. *)
Definition handleDelete_onPositiveClick (index : Z) (s : View) : View :=
  deleteChatByUuid index s.

(** [handleClear] *)
Definition handleClear (s : View) : View :=
  if loading s then s else dialog_warning ClearChat s.

(** [onPositiveClick] of the dialog of [handleClear]. *)
Definition handleClear_onPositiveClick (s : View) : View :=
  clearChatByUuid s.

(** [handleStop] *)
Definition handleStop (s : View) : View :=
  if loading s then
    let s := abort s in
    set_loading false s
  else s.

(** The computed [buttonDisabled]. *)
Definition buttonDisabled (s : View) : bool :=
  loading s || negb (truthy (prompt s)) || strictEq (trim (prompt s)) [].

(** The [onUnmounted] hook. *)
Definition onUnmounted (s : View) : View :=
  if loading s then abort s else s.

End Script.

(** ** The words of the specification, for comparison with the code *)

(** "The suffix of the buffer starting at the last newline character that
    occurs strictly before the buffer's final character, or the whole
    buffer when no such newline exists." *)
Inductive lastLine (buffer : jsstring) : jsstring -> Prop :=
  | lastLine_from (i : nat) :
      buffer !! i = Some LF ->
      (i + 1 < length buffer)%nat ->
      (forall j, (i < j)%nat -> (j + 1 < length buffer)%nat ->
                 buffer !! j ≠ Some LF) ->
      lastLine buffer (drop i buffer)
  | lastLine_whole :
      (forall j, (j + 1 < length buffer)%nat -> buffer !! j ≠ Some LF) ->
      lastLine buffer buffer.

(** "Empty or consisting only of whitespace." *)
Definition blank (s : jsstring) : Prop := Forall (fun c => isWhiteSpace c = true) s.

(** "The finish reason equals 'length'." *)
Definition truncated (data : ConversationResponse.t) : bool :=
  bool_decide (finish_reason_of data = Some (Some (lit "length"))).

(** The message a handler writes for a decoded chunk. *)
Definition streamed (k : Closure) (now : jsstring)
    (data : ConversationResponse.t) : Message.t :=
  Message.mk now
    (add (lastText k) (default [] (ConversationResponse.text data)))
    false false (Some true)
    (Some (ConversationRequest.mk
             (ConversationResponse.conversationId data)
             (ConversationResponse.id data)))
    (requestOptionsOf (message k) (options k)).

(** The closure variables after a chunk that asks for a continuation. *)
Definition resumed (k : Closure) (data : ConversationResponse.t) : Closure :=
  mkClosure []
    (ConversationRequest.mk
       (ConversationRequest.conversationId (options k))
       (ConversationResponse.id data))
    (ConversationResponse.text data).

(** "Marked no-longer-loading": the same message, [loading] false. *)
Definition notLoading (m : Message.t) : Message.t :=
  Message.mk (Message.dateTime m) (Message.text m) (Message.inversion m)
    (Message.error m) (Some false) (Message.conversationOptions m)
    (Message.requestOptions m).

(** The transcript with the message at [index], if there is one, marked
    no-longer-loading. *)
Definition markNotLoading (index : Z) (data : list Message.t)
  : list Message.t :=
  if 0 <=? index then alter notLoading (Z.to_nat index) data else data.

(** "The most recent previous non-inversion message carrying
    conversationOptions", if there is one, gives its options. *)
Inductive mostRecentContext (data : list Message.t)
  : option ConversationRequest.t -> Prop :=
  | mostRecentContext_found before m after c :
      data = before ++ m :: after ->
      Message.inversion m = false ->
      Message.conversationOptions m = Some c ->
      Forall (fun m' => Message.inversion m' = true
                        \/ Message.conversationOptions m' = None) after ->
      mostRecentContext data (Some c)
  | mostRecentContext_none :
      Forall (fun m' => Message.inversion m' = true
                        \/ Message.conversationOptions m' = None) data ->
      mostRecentContext data None.

(** "The request options are a copy of the most recent such message's
    conversationOptions" when the toggle is on and there is one; they
    "start empty" otherwise. *)
Definition contextOptions (usingContext0 : bool)
    (context : option ConversationRequest.t) : ConversationRequest.t :=
  match context with
  | Some c => if usingContext0 then c else ConversationRequest.empty
  | None => ConversationRequest.empty
  end.

(** ** Sample inputs *)

Module Sample.

(** A JSON string literal. *)
Definition quoted (s : string) : jsstring := [34%N] ++ lit s ++ [34%N].

(** One line of a streamed response whose reply was cut for length:
    id m1, conversationId c1, text Hel, finish_reason length. *)
Definition line : jsstring :=
  lit "{" ++ quoted "id" ++ lit ":" ++ quoted "m1" ++ lit ","
  ++ quoted "conversationId" ++ lit ":" ++ quoted "c1" ++ lit ","
  ++ quoted "text" ++ lit ":" ++ quoted "Hel" ++ lit ","
  ++ quoted "detail" ++ lit ":{" ++ quoted "choices" ++ lit ":[{"
  ++ quoted "finish_reason" ++ lit ":" ++ quoted "length" ++ lit "}]}}".

(** The object [line] decodes to. *)
Definition data : ConversationResponse.t :=
  ConversationResponse.mk (Some (lit "c1"))
    (Some (ConversationResponse.mk_detail
             (Some [ConversationResponse.mk_choice (Some (lit "length"))])))
    (Some (lit "m1")) (Some (lit "Hel")).

(** A response buffer: an earlier line, then [line]. *)
Definition buffer : jsstring := lit "{}" ++ [LF] ++ line.

(** A decoder that knows [line], whitespace around it apart, and rejects
    every other text. *)
Definition parse (chunk : jsstring) : option ConversationResponse.t :=
  if strictEq (trim chunk) line then Some data else None.

(** A decoder that rejects every text. *)
Definition parse_nothing (chunk : jsstring)
  : option ConversationResponse.t := None.

(** The locales: one message for every key. *)
Definition t (key : string) : jsstring := lit "Something went wrong".

(** A stored transcript of one exchange. *)
Definition transcript : list Message.t :=
  [ Message.mk (lit "10:00") (lit "q") true false None None
      (RequestOptions.mk (lit "q") None);
    Message.mk (lit "10:01") (lit "a") false false (Some false)
      (Some (ConversationRequest.mk (Some (lit "c0")) (Some (lit "m0"))))
      (RequestOptions.mk (lit "q") (Some ConversationRequest.empty)) ].

(** The view over [transcript], the context toggle on, with a prompt
    typed in. *)
Definition idle : View := set_prompt (lit "hi") (setup true transcript).

(** The same view with only blanks typed in. *)
Definition idle_blank : View :=
  set_prompt (lit "  " ++ [LF]) (setup true transcript).

(** [idle] after the prompt was submitted. *)
Definition sending : View := (onConversation (lit "10:02") (lit "10:02") idle).2.

(** The closure variables of that send. *)
Definition closure : Closure :=
  mkClosure (lit "hi")
    (ConversationRequest.mk (Some (lit "c0")) (Some (lit "m0"))) (Some []).

(** An error that is not a cancellation, and a cancellation. *)
Definition failure : Error.t := Error.mk (Some (lit "Network Error")).

Definition cancellation : Error.t := Error.mk (Some (lit "canceled")).

End Sample.

(** ** The rest of the script block: keys, prompt templates, whole runs *)

(** What [handleEnter] reads of a keyboard event. *)
Module KeyboardEvent.

Record t := mk {
  key : jsstring;
  shiftKey : bool;
  ctrlKey : bool
}.

End KeyboardEvent.

(** An entry of the prompt store's [promptList], as the script reads it. *)
Module PromptTemplate.

Record t := mk {
  key : jsstring;
  value : jsstring
}.

End PromptTemplate.

(** An option of the auto-complete. *)
Module SelectOption.

Record t := mk {
  label : jsstring;
  value : jsstring
}.

End SelectOption.

(** [S.startsWith(searchString)] *)
Definition startsWith (S searchString : jsstring) : bool :=
  bool_decide (searchString `prefix_of` S).

(** [S.includes(searchString)]: the search string is tried at the
    positions [0], [1], ... of [S]. *)
Fixpoint includes (S searchString : jsstring) : bool :=
  bool_decide (searchString `prefix_of` S)
  || match S with
     | [] => false
     | _ :: S' => includes S' searchString
     end.

Section Rest.

(** [String.prototype.toLowerCase], left abstract. *)
Variable toLowerCase : jsstring -> jsstring.

(** [promptTemplate.value], the list of the prompt store. *)
Variable promptTemplate : list PromptTemplate.t.

(** The computed [searchOptions]. *)
Definition searchOptions (s : View) : list SelectOption.t :=
  if startsWith (prompt s) (lit "/") then
    map (fun obj => SelectOption.mk (PromptTemplate.value obj)
                      (PromptTemplate.value obj))
      (filter (fun item =>
                 includes (toLowerCase (PromptTemplate.key item))
                   (toLowerCase (substring (prompt s) 1)) = true)
         promptTemplate)
  else [].

(** The loop of [renderOption] over the templates that are left. *)
Fixpoint renderOption_from (rest : list PromptTemplate.t)
    (option : SelectOption.t) : list jsstring :=
  match rest with
  | [] => []
  | i :: rest' =>
      if strictEq (PromptTemplate.value i) (SelectOption.label option)
      then [PromptTemplate.key i]
      else renderOption_from rest' option
  end.

(** [renderOption] *)
Definition renderOption (option : SelectOption.t) : list jsstring :=
  renderOption_from promptTemplate option.


End Rest.

(** How the promise a send waits for settles. *)
Inductive Settlement : Type :=
  | Fulfilled
  | Rejected (now : jsstring) (error : Error.t).

Section Runs.

Variable openLongReply : bool.
Variable JSON_parse : jsstring -> option ConversationResponse.t.
Variable t : string -> jsstring.

(** The progress events of one request, delivered in order to the handler
    of [onConversation]; an event is the reading of the clock and the
    response buffer at that moment. *)
Definition onConversation_progress (k : Closure) (s : View)
    (events : list (jsstring * jsstring)) : Closure * View :=
  foldl (fun ks event =>
           onConversation_onDownloadProgress openLongReply JSON_parse ks.1
             event.1 event.2 ks.2)
        (k, s) events.

(** The same for the handler of [onRegenerate]. *)
Definition onRegenerate_progress (index : Z) (k : Closure) (s : View)
    (events : list (jsstring * jsstring)) : Closure * View :=
  foldl (fun ks event =>
           onRegenerate_onDownloadProgress openLongReply JSON_parse index
             ks.1 event.1 event.2 ks.2)
        (k, s) events.

(** [onConversation] from the call to the end, when nothing else happens
    in the view meanwhile: the synchronous part, the progress events of
    the awaited request, then what follows its settlement. *)
Definition onConversation_run (now1 now2 : jsstring)
    (events : list (jsstring * jsstring)) (settlement : Settlement)
    (s : View) : Outcome * View :=
  match onConversation now1 now2 s with
  | (Awaiting k, s1) =>
      let ks := onConversation_progress k s1 events in
      match settlement with
      | Fulfilled => (Returned, onConversation_fulfilled ks.2)
      | Rejected now error =>
          (Returned, onConversation_rejected t ks.1 now error ks.2)
      end
  | stopped => stopped
  end.

(** [onRegenerate] from the call to the end, in the same way. *)
Definition onRegenerate_run (index : Z) (now0 : jsstring)
    (events : list (jsstring * jsstring)) (settlement : Settlement)
    (s : View) : Outcome * View :=
  match onRegenerate index now0 s with
  | (Awaiting k, s1) =>
      let ks := onRegenerate_progress index k s1 events in
      match settlement with
      | Fulfilled => (Returned, onRegenerate_fulfilled index ks.2)
      | Rejected now error =>
          (Returned, onRegenerate_rejected t index ks.1 now error ks.2)
      end
  | stopped => stopped
  end.

End Runs.

(** The request of a long-reply continuation is rejected.  That request
    was issued by [return fetchChatAPIOnce()] inside a progress handler,
    which is not [async]: the [await] inside this [fetchChatAPIOnce]
    throws, the rest of its body is skipped, and the rejection goes to the
    promise the handler returned to its caller, out of reach of the
    [try] of the send or of the regenerate.  No statement of the script
    block runs; the request is no longer in flight. *)
Definition continuation_rejected (error : Error.t) (s : View) : View :=
  settle s.

(** The last buffer of a stream that decodes, with the clock reading of
    its event. *)
Definition lastDecoded
    (JSON_parse : jsstring -> option ConversationResponse.t)
    (events : list (jsstring * jsstring))
  : option (jsstring * ConversationResponse.t) :=
  last (omap (fun event : jsstring * jsstring =>
                pair event.1 <$> JSON_parse (lastChunk event.2))
             events).

(** No buffer of the stream asks for a continuation. *)
Definition noContinuation (openLongReply : bool)
    (JSON_parse : jsstring -> option ConversationResponse.t)
    (events : list (jsstring * jsstring)) : Prop :=
  Forall (fun event : jsstring * jsstring =>
            forall data, JSON_parse (lastChunk event.2) = Some data ->
                         openLongReply && truncated data = false)
         events.

(** The message a send or a regenerate leaves at the streaming index once
    its request is fulfilled: the last decoded chunk, or [start] when no
    buffer decoded, marked as not loading. *)
Definition settled (k : Closure) (start : Message.t)
    (decoded : option (jsstring * ConversationResponse.t)) : Message.t :=
  notLoading
    match decoded with
    | Some (now, data) => streamed k now data
    | None => start
    end.

(** More sample inputs. *)
Module Sample2.

(** ASCII letters to lower case, every other code unit as it is. *)
Definition toLowerCase (S : jsstring) : jsstring :=
  map (fun c => if ((65 <=? c) && (c <=? 90))%N then (c + 32)%N else c) S.

Definition templates : list PromptTemplate.t :=
  [ PromptTemplate.mk (lit "Translator") (lit "Translate what I write.");
    PromptTemplate.mk (lit "Poet") (lit "Answer in verse.") ].

(** A line whose reply is complete: id m2, conversationId c1, text Hello. *)
Definition line : jsstring :=
  lit "{" ++ Sample.quoted "id" ++ lit ":" ++ Sample.quoted "m2" ++ lit ","
  ++ Sample.quoted "conversationId" ++ lit ":" ++ Sample.quoted "c1"
  ++ lit "," ++ Sample.quoted "text" ++ lit ":" ++ Sample.quoted "Hello"
  ++ lit "}".

Definition data : ConversationResponse.t :=
  ConversationResponse.mk (Some (lit "c1")) None (Some (lit "m2"))
    (Some (lit "Hello")).

(** A decoder that knows [line] and [Sample.line]. *)
Definition parse (chunk : jsstring) : option ConversationResponse.t :=
  if strictEq (trim chunk) line then Some data
  else Sample.parse chunk.

(** A stream of two events: a buffer that does not decode yet, then the
    complete line. *)
Definition events : list (jsstring * jsstring) :=
  [ (lit "10:03", lit "{"); (lit "10:04", line ++ [LF]) ].

Definition enter : KeyboardEvent.t := KeyboardEvent.mk (lit "Enter") false false.



End Sample2.

(** ** Facts about the string built-ins *)

Section Strings.

Implicit Types (S : jsstring) (c : N).

Lemma StringLastIndexOf_none S c k :
  StringLastIndexOf S c k = -1 ->
  forall j, (j <= k)%nat -> S !! j ≠ Some c.
Proof.
  induction k as [|k IH]; simpl; case_bool_decide as Hk; try lia.
  - intros _ j Hj. replace j with 0%nat by lia. exact Hk.
  - intros Hrec j Hj. destruct (decide (j = Datatypes.S k)) as [->|Hne].
    + exact Hk.
    + apply IH; [exact Hrec | lia].
Qed.

Lemma StringLastIndexOf_some S c k :
  StringLastIndexOf S c k ≠ -1 ->
  exists i, StringLastIndexOf S c k = Z.of_nat i /\ (i <= k)%nat
            /\ S !! i = Some c
            /\ forall j, (i < j)%nat -> (j <= k)%nat -> S !! j ≠ Some c.
Proof.
  induction k as [|k IH]; simpl; case_bool_decide as Hk.
  - intros _. exists 0%nat. repeat split; auto. intros; lia.
  - intros H; contradiction.
  - intros _. exists (Datatypes.S k). repeat split; auto. intros; lia.
  - intros Hrec. destruct (IH Hrec) as (i & Hi & Hle & Hc & Hmax).
    exists i. repeat split; auto.
    intros j Hij Hj. destruct (decide (j = Datatypes.S k)) as [->|Hne].
    + exact Hk.
    + apply Hmax; lia.
Qed.

Lemma lastLine_lastChunk (buffer : jsstring) :
  lastLine buffer (lastChunk buffer).
Proof.
  unfold lastChunk, lastIndexOf, substring, clamp.
  set (len := Z.of_nat (length buffer)).
  destruct (Z.ltb_spec (Z.min (Z.max (len - 2) 0) (len - 1)) 0) as [Hneg|Hpos].
  - rewrite bool_decide_eq_false_2 by (intros H; apply H; reflexivity).
    apply lastLine_whole. intros j Hj. lia.
  - set (start := Z.to_nat (Z.min (Z.max (len - 2) 0) (len - 1))).
    case_bool_decide as Hfound.
    + destruct (StringLastIndexOf_some _ _ _ Hfound)
        as (i & Hi & Hle & Hc & Hmax).
      rewrite Hi.
      replace (Z.to_nat (Z.min (Z.max (Z.of_nat i) 0) len)) with i.
      2:{ pose proof (lookup_lt_Some _ _ _ Hc). lia. }
      destruct (decide (i + 1 < length buffer)%nat) as [Hlt|Hge].
      * apply lastLine_from; auto. intros j Hij Hj. apply Hmax; lia.
      * assert (i = 0%nat) as -> by lia. rewrite drop_0.
        apply lastLine_whole. intros j Hj. lia.
    + apply lastLine_whole. intros j Hj.
      apply (StringLastIndexOf_none buffer LF start); [|lia].
      destruct (decide (StringLastIndexOf buffer LF start = -1)); tauto.
Qed.

Lemma lastLine_unique (buffer x y : jsstring) :
  lastLine buffer x -> lastLine buffer y -> x = y.
Proof.
  intros [i Hi Hlt Hmax|Hnone] [i' Hi' Hlt' Hmax'|Hnone']; auto.
  - destruct (Nat.lt_trichotomy i i') as [H|[->|H]]; auto.
    + exfalso. exact (Hmax i' H Hlt' Hi').
    + exfalso. exact (Hmax' i H Hlt Hi).
  - exfalso. exact (Hnone' i Hlt Hi).
  - exfalso. exact (Hnone i' Hlt' Hi').
Qed.

Lemma trimStart_nil S :
  trimStart S = [] <-> blank S.
Proof.
  unfold blank. induction S as [|c S IH]; simpl.
  - split; auto.
  - destruct (isWhiteSpace c) eqn:Hc.
    + rewrite IH. split; [intros H; constructor; auto|].
      intros H. inversion H; auto.
    + split; [discriminate|]. intros H. inversion H; congruence.
Qed.

Lemma trimStart_head S c r :
  trimStart S = c :: r -> isWhiteSpace c = false.
Proof.
  induction S as [|a S IH]; simpl; [discriminate|].
  destruct (isWhiteSpace a) eqn:Ha; auto.
  intros H. inversion H; subst. exact Ha.
Qed.

Lemma trim_nil S : trim S = [] <-> blank S.
Proof.
  rewrite <- trimStart_nil. unfold trim, trimEnd. split.
  - intros H. destruct (trimStart S) as [|c r] eqn:E; auto.
    exfalso. apply (f_equal reverse) in H. rewrite reverse_involutive in H.
    simpl in H. apply trimStart_nil in H. unfold blank in H.
    rewrite Forall_reverse in H. inversion H as [|? ? Hc _]; subst.
    apply trimStart_head in E. congruence.
  - intros ->. reflexivity.
Qed.

(** The emptiness test of [onConversation] and of [buttonDisabled]. *)
Lemma blank_test S :
  negb (truthy S) || strictEq (trim S) [] = true <-> blank S.
Proof.
  rewrite <- trim_nil. unfold strictEq. split.
  - intros H. apply orb_true_iff in H as [H|H].
    + destruct S; [reflexivity|discriminate].
    + apply bool_decide_eq_true in H. exact H.
  - intros H. apply orb_true_iff. right. apply bool_decide_eq_true. exact H.
Qed.

End Strings.

(** ** Facts about the store *)

Section StoreFacts.

Implicit Types (data : list Message.t) (index : Z).

Lemma at_index_Some {A} (a : list A) (i : Z) (x : A) :
  at_index a i = Some x <-> 0 <= i /\ a !! Z.to_nat i = Some x.
Proof.
  unfold at_index. destruct (Z.leb_spec 0 i) as [Hi|Hi].
  - split; [intros H; split; [exact Hi|exact H] | intros [_ H]; exact H].
  - split; [discriminate | intros [H _]; lia].
Qed.

Lemma at_index_lastIndex s :
  at_index (dataSources s) (lastIndex s) = last (dataSources s).
Proof.
  unfold at_index, lastIndex. rewrite last_lookup.
  destruct (dataSources s) as [|m l]; simpl; [reflexivity|].
  destruct (Z.leb_spec 0 (Z.of_nat (Datatypes.S (length l)) - 1)); [|lia].
  f_equal. lia.
Qed.

Lemma length_updateChat index chat data :
  length (Store.updateChat index chat data) = length data.
Proof.
  unfold Store.updateChat. destruct (0 <=? index); auto using length_insert.
Qed.

Lemma length_updateChatSome index p data :
  length (Store.updateChatSome index p data) = length data.
Proof.
  unfold Store.updateChatSome.
  destruct (Store.getChatByUuidAndIndex index data);
    auto using length_updateChat.
Qed.

Lemma at_index_updateChat_eq index chat data :
  is_Some (at_index data index) ->
  at_index (Store.updateChat index chat data) index = Some chat.
Proof.
  intros [m Hm]. apply at_index_Some in Hm as [H0 Hm].
  apply at_index_Some. split; [exact H0|].
  unfold Store.updateChat. destruct (Z.leb_spec 0 index); [|lia].
  apply list_lookup_insert_eq. eapply lookup_lt_Some; eauto.
Qed.

Lemma lookup_updateChat_ne index chat data (i : nat) :
  Z.of_nat i ≠ index ->
  Store.updateChat index chat data !! i = data !! i.
Proof.
  intros Hne. unfold Store.updateChat.
  destruct (Z.leb_spec 0 index); [|reflexivity].
  apply list_lookup_insert_ne. lia.
Qed.

Lemma lookup_updateChatSome_ne index p data (i : nat) :
  Z.of_nat i ≠ index ->
  Store.updateChatSome index p data !! i = data !! i.
Proof.
  intros Hne. unfold Store.updateChatSome.
  destruct (Store.getChatByUuidAndIndex index data);
    auto using lookup_updateChat_ne.
Qed.

(** Overwriting some keys is an in-place change of one message. *)
Lemma updateChatSome_alter index p data :
  Store.updateChatSome index p data
  = if 0 <=? index
    then alter (fun m => Partial.spread m p) (Z.to_nat index) data
    else data.
Proof.
  unfold Store.updateChatSome, Store.getChatByUuidAndIndex, at_index,
    Store.updateChat.
  destruct (0 <=? index); [|reflexivity].
  generalize (Z.to_nat index) as i. clear index. intros i.
  revert i. induction data as [|m data IH]; intros [|i]; simpl; auto.
  specialize (IH i). destruct (data !! i) eqn:E; simpl in *.
  - unfold alter in IH |- *. simpl. f_equal. exact IH.
  - unfold alter in IH |- *. simpl. f_equal. exact IH.
Qed.

End StoreFacts.

(** ** The download-progress handlers *)

Section Handlers.

Variable openLongReply : bool.
Variable JSON_parse : jsstring -> option ConversationResponse.t.

Implicit Types (k : Closure) (s : View) (data : ConversationResponse.t).

Ltac handler_cases data :=
  destruct openLongReply; simpl;
  [ destruct (finish_reason_of data) as [[reason|]|] eqn:Hreason; simpl;
    [ unfold strictEq; case_bool_decide as Hlen; simpl | | ]
  | ].

Lemma truncated_length data :
  finish_reason_of data = Some (Some (lit "length")) -> truncated data = true.
Proof. intros H. unfold truncated. rewrite H. reflexivity. Qed.

Lemma truncated_other data reason :
  finish_reason_of data = Some reason ->
  reason ≠ Some (lit "length") ->
  truncated data = false.
Proof.
  intros H Hne. unfold truncated. rewrite H.
  apply bool_decide_eq_false. congruence.
Qed.

Lemma truncated_thrown data :
  finish_reason_of data = None -> truncated data = false.
Proof. intros H. unfold truncated. rewrite H. reflexivity. Qed.

(** What the handler of [onConversation] does with a decoded chunk. *)
Lemma onConversation_onDownloadProgress_decoded k now responseText s data :
  JSON_parse (lastChunk responseText) = Some data ->
  let again := openLongReply && truncated data in
  let s1 := updateChat (lastIndex s) (streamed k now data) s in
  onConversation_onDownloadProgress openLongReply JSON_parse k now
    responseText s
  = if again
    then (resumed k data, onConversation_fetchChatAPIOnce (resumed k data) s1)
    else (k, if openLongReply && bool_decide (finish_reason_of data = None)
             then s1 else scrollToBottomIfAtBottom s1).
Proof.
  intros Hparse. unfold onConversation_onDownloadProgress.
  rewrite Hparse. fold (streamed k now data). fold (resumed k data).
  handler_cases data.
  - subst reason. rewrite truncated_length by assumption. reflexivity.
  - rewrite (truncated_other _ _ Hreason) by congruence. reflexivity.
  - rewrite (truncated_other _ _ Hreason) by congruence. reflexivity.
  - rewrite truncated_thrown by assumption. reflexivity.
  - reflexivity.
Qed.

(** What the handler of [onRegenerate] does with a decoded chunk. *)
Lemma onRegenerate_onDownloadProgress_decoded index k now responseText s
    data :
  JSON_parse (lastChunk responseText) = Some data ->
  let again := openLongReply && truncated data in
  let s1 := updateChat index (streamed k now data) s in
  onRegenerate_onDownloadProgress openLongReply JSON_parse index k now
    responseText s
  = if again
    then (resumed k data, onRegenerate_fetchChatAPIOnce (resumed k data) s1)
    else (k, s1).
Proof.
  intros Hparse. unfold onRegenerate_onDownloadProgress.
  rewrite Hparse. fold (streamed k now data). fold (resumed k data).
  handler_cases data.
  - subst reason. rewrite truncated_length by assumption. reflexivity.
  - rewrite (truncated_other _ _ Hreason) by congruence. reflexivity.
  - rewrite (truncated_other _ _ Hreason) by congruence. reflexivity.
  - rewrite truncated_thrown by assumption. reflexivity.
  - reflexivity.
Qed.

End Handlers.

(** ** The claims about the streamed response *)

Lemma dataSources_onConversation_onDownloadProgress
    openLongReply JSON_parse k now responseText s data :
  JSON_parse (lastChunk responseText) = Some data ->
  dataSources
    (onConversation_onDownloadProgress openLongReply JSON_parse k now
       responseText s).2
  = Store.updateChat (lastIndex s) (streamed k now data) (dataSources s).
Proof.
  intros H. rewrite (onConversation_onDownloadProgress_decoded _ _ _ _ _ _ _ H).
  destruct (openLongReply && truncated data); simpl; [reflexivity|].
  destruct (openLongReply && bool_decide (finish_reason_of data = None));
    reflexivity.
Qed.

Lemma dataSources_onRegenerate_onDownloadProgress
    openLongReply JSON_parse index k now responseText s data :
  JSON_parse (lastChunk responseText) = Some data ->
  dataSources
    (onRegenerate_onDownloadProgress openLongReply JSON_parse index k now
       responseText s).2
  = Store.updateChat index (streamed k now data) (dataSources s).
Proof.
  intros H.
  rewrite (onRegenerate_onDownloadProgress_decoded _ _ _ _ _ _ _ _ H).
  destruct (openLongReply && truncated data); reflexivity.
Qed.

Lemma trace_onConversation_onDownloadProgress
    openLongReply JSON_parse k now responseText s data :
  JSON_parse (lastChunk responseText) = Some data ->
  exists rest,
    trace
      (onConversation_onDownloadProgress openLongReply JSON_parse k now
         responseText s).2
    = trace s ++ UpdateChat (lastIndex s) (streamed k now data) :: rest.
Proof.
  intros H. rewrite (onConversation_onDownloadProgress_decoded _ _ _ _ _ _ _ H).
  destruct (openLongReply && truncated data); simpl.
  - eexists. rewrite <- app_assoc. reflexivity.
  - destruct (openLongReply && bool_decide (finish_reason_of data = None));
      simpl.
    + exists []. reflexivity.
    + eexists. rewrite <- app_assoc. reflexivity.
Qed.

Lemma trace_onRegenerate_onDownloadProgress
    openLongReply JSON_parse index k now responseText s data :
  JSON_parse (lastChunk responseText) = Some data ->
  exists rest,
    trace
      (onRegenerate_onDownloadProgress openLongReply JSON_parse index k now
         responseText s).2
    = trace s ++ UpdateChat index (streamed k now data) :: rest.
Proof.
  intros H.
  rewrite (onRegenerate_onDownloadProgress_decoded _ _ _ _ _ _ _ _ H).
  destruct (openLongReply && truncated data); simpl.
  - eexists. rewrite <- app_assoc. reflexivity.
  - exists []. reflexivity.
Qed.

(** Both handlers on the last chunk: a text the decoder rejects changes
    nothing; a text it accepts has its decoded object written at the
    streaming index, before anything else the handler does. *)
Lemma handlers_on_last_chunk
    (openLongReply : bool)
    (JSON_parse : jsstring -> option ConversationResponse.t)
    (index : Z) (k : Closure) (now responseText : jsstring) (s : View) :
  let sent :=
    onConversation_onDownloadProgress openLongReply JSON_parse k now
      responseText s in
  let regenerated :=
    onRegenerate_onDownloadProgress openLongReply JSON_parse index k now
      responseText s in
  match JSON_parse (lastChunk responseText) with
  | None => sent = (k, s) /\ regenerated = (k, s)
  | Some data =>
      (exists rest,
          trace sent.2
          = trace s ++ UpdateChat (lastIndex s) (streamed k now data) :: rest)
      /\ (exists rest,
             trace regenerated.2
             = trace s ++ UpdateChat index (streamed k now data) :: rest)
  end.
Proof.
  cbv zeta.
  destruct (JSON_parse (lastChunk responseText)) as [data|] eqn:Hparse.
  - split.
    + apply trace_onConversation_onDownloadProgress. exact Hparse.
    + apply trace_onRegenerate_onDownloadProgress. exact Hparse.
  - unfold onConversation_onDownloadProgress,
      onRegenerate_onDownloadProgress. rewrite Hparse. split; reflexivity.
Qed.

(** C1: for every response buffer delivered to the download-progress
    handler of a send or of a regenerate, the text given to the JSON
    decoder is the suffix of the buffer that starts at the last newline
    strictly before the buffer's final character, or the whole buffer when
    there is no such newline.  The handler does hand that text to the
    decoder: when the decoder accepts it, the decoded object is what the
    handler writes to the transcript (so a decoder that accepts this text
    and no other has its object written), and when the decoder rejects
    it, whatever it does on other texts, the handler changes nothing.  The
    decoder is consulted on that text and on nothing else. *)
Theorem C1_decodes_last_line :
  forall (openLongReply : bool)
         (JSON_parse : jsstring -> option ConversationResponse.t)
         (index : Z) (k : Closure) (now responseText : jsstring) (s : View),
    (forall chunk, lastLine responseText chunk <-> chunk = lastChunk responseText)
    /\ onConversation_onDownloadProgress openLongReply JSON_parse k now
         responseText s
       = match JSON_parse (lastChunk responseText) with
         | None => (k, s)
         | Some data =>
             onConversation_onDownloadProgress openLongReply
               (fun _ => Some data) k now responseText s
         end
    /\ onRegenerate_onDownloadProgress openLongReply JSON_parse index k now
         responseText s
       = match JSON_parse (lastChunk responseText) with
         | None => (k, s)
         | Some data =>
             onRegenerate_onDownloadProgress openLongReply
               (fun _ => Some data) index k now responseText s
         end
    /\ match JSON_parse (lastChunk responseText) with
       | None =>
           onConversation_onDownloadProgress openLongReply JSON_parse k now
             responseText s = (k, s)
           /\ onRegenerate_onDownloadProgress openLongReply JSON_parse index
                k now responseText s = (k, s)
       | Some data =>
           (exists rest,
               trace
                 (onConversation_onDownloadProgress openLongReply JSON_parse
                    k now responseText s).2
               = trace s
                 ++ UpdateChat (lastIndex s) (streamed k now data) :: rest)
           /\ (exists rest,
                  trace
                    (onRegenerate_onDownloadProgress openLongReply
                       JSON_parse index k now responseText s).2
                  = trace s ++ UpdateChat index (streamed k now data) :: rest)
       end
    /\ (forall data : ConversationResponse.t,
          let only_this := fun chunk : jsstring =>
            if strictEq chunk (lastChunk responseText) then Some data
            else None in
          let all_but_this := fun chunk : jsstring =>
            if strictEq chunk (lastChunk responseText) then None
            else Some data in
          (exists rest,
              trace
                (onConversation_onDownloadProgress openLongReply only_this k
                   now responseText s).2
              = trace s
                ++ UpdateChat (lastIndex s) (streamed k now data) :: rest)
          /\ (exists rest,
                 trace
                   (onRegenerate_onDownloadProgress openLongReply only_this
                      index k now responseText s).2
                 = trace s ++ UpdateChat index (streamed k now data) :: rest)
          /\ onConversation_onDownloadProgress openLongReply all_but_this k
               now responseText s = (k, s)
          /\ onRegenerate_onDownloadProgress openLongReply all_but_this index
               k now responseText s = (k, s)).
Proof.
  intros. split; [|split; [|split; [|split]]].
  - intros chunk. split.
    + intros H. exact (lastLine_unique _ _ _ H (lastLine_lastChunk _)).
    + intros ->. apply lastLine_lastChunk.
  - unfold onConversation_onDownloadProgress.
    destruct (JSON_parse (lastChunk responseText)); reflexivity.
  - unfold onRegenerate_onDownloadProgress.
    destruct (JSON_parse (lastChunk responseText)); reflexivity.
  - apply handlers_on_last_chunk.
  - intros data only_this all_but_this.
    assert (Hsame : strictEq (lastChunk responseText) (lastChunk responseText)
                    = true)
      by (unfold strictEq; apply bool_decide_eq_true; reflexivity).
    pose proof (handlers_on_last_chunk openLongReply only_this index k now
                  responseText s) as Hyes.
    pose proof (handlers_on_last_chunk openLongReply all_but_this index k now
                  responseText s) as Hno.
    cbv zeta in Hyes, Hno. subst only_this all_but_this.
    cbv beta in Hyes, Hno. rewrite Hsame in Hyes, Hno.
    destruct Hyes as [H1 H2]. destruct Hno as [H3 H4]. auto.
Qed.

Lemma is_Some_at_index_lastIndex s :
  dataSources s ≠ [] -> is_Some (at_index (dataSources s) (lastIndex s)).
Proof.
  intros Hne. rewrite at_index_lastIndex.
  destruct (dataSources s) as [|m l] using rev_ind; [contradiction|].
  rewrite last_snoc. eauto.
Qed.

(** C2: for every successfully decoded chunk the message at the streaming
    index (the last index for a send, [index] for a regenerate) is
    overwritten: its text is [lastText] followed by the chunk's [text]
    (nothing when the field is absent) and its conversation options are
    the chunk's [conversationId] and [id].  A later chunk overwrites the
    text again, from the accumulator and its own text alone: the last
    chunk wins. *)
Theorem C2_last_chunk_wins :
  forall (openLongReply : bool)
         (JSON_parse : jsstring -> option ConversationResponse.t)
         (index : Z) (k : Closure) (now responseText : jsstring) (s : View)
         (data : ConversationResponse.t),
    JSON_parse (lastChunk responseText) = Some data ->
    dataSources s ≠ [] ->
    is_Some (at_index (dataSources s) index) ->
    let text' :=
      add (lastText k) (default [] (ConversationResponse.text data)) in
    let options' :=
      Some (ConversationRequest.mk (ConversationResponse.conversationId data)
              (ConversationResponse.id data)) in
    let sent :=
      onConversation_onDownloadProgress openLongReply JSON_parse k now
        responseText s in
    let regenerated :=
      onRegenerate_onDownloadProgress openLongReply JSON_parse index k now
        responseText s in
    (exists m rest,
        at_index (dataSources sent.2) (lastIndex s) = Some m
        /\ Message.text m = text'
        /\ Message.conversationOptions m = options'
        /\ trace sent.2 = trace s ++ UpdateChat (lastIndex s) m :: rest)
    /\ (exists m rest,
           at_index (dataSources regenerated.2) index = Some m
           /\ Message.text m = text'
           /\ Message.conversationOptions m = options'
           /\ trace regenerated.2 = trace s ++ UpdateChat index m :: rest)
    /\ (forall (now2 responseText2 : jsstring)
               (data2 : ConversationResponse.t),
          JSON_parse (lastChunk responseText2) = Some data2 ->
          (exists m,
              at_index
                (dataSources
                   (onConversation_onDownloadProgress openLongReply
                      JSON_parse sent.1 now2 responseText2 sent.2).2)
                (lastIndex s) = Some m
              /\ Message.text m
                 = add (lastText sent.1)
                     (default [] (ConversationResponse.text data2)))
          /\ (exists m,
                 at_index
                   (dataSources
                      (onRegenerate_onDownloadProgress openLongReply
                         JSON_parse index regenerated.1 now2 responseText2
                         regenerated.2).2)
                   index = Some m
                 /\ Message.text m
                    = add (lastText regenerated.1)
                        (default [] (ConversationResponse.text data2)))).
Proof.
  intros olr parse index k now buf s data Hparse Hne Hidx text' options'
    sent regenerated.
  pose proof (is_Some_at_index_lastIndex s Hne) as Hlast.
  assert (Hsent : dataSources sent.2
                  = Store.updateChat (lastIndex s) (streamed k now data)
                      (dataSources s))
    by (apply dataSources_onConversation_onDownloadProgress; exact Hparse).
  assert (Hregen : dataSources regenerated.2
                   = Store.updateChat index (streamed k now data)
                       (dataSources s))
    by (apply dataSources_onRegenerate_onDownloadProgress; exact Hparse).
  split; [|split].
  - destruct (trace_onConversation_onDownloadProgress olr parse k now buf s
                data Hparse) as [rest Hrest].
    exists (streamed k now data), rest. rewrite Hsent.
    rewrite at_index_updateChat_eq by exact Hlast. auto.
  - destruct (trace_onRegenerate_onDownloadProgress olr parse index k now buf
                s data Hparse) as [rest Hrest].
    exists (streamed k now data), rest. rewrite Hregen.
    rewrite at_index_updateChat_eq by exact Hidx. auto.
  - intros now2 buf2 data2 Hparse2. split.
    + exists (streamed sent.1 now2 data2).
      rewrite (dataSources_onConversation_onDownloadProgress _ _ _ _ _ _ _
                 Hparse2).
      assert (lastIndex sent.2 = lastIndex s) as ->.
      { unfold lastIndex. rewrite Hsent, length_updateChat. reflexivity. }
      rewrite at_index_updateChat_eq; [auto|].
      rewrite Hsent, at_index_updateChat_eq by exact Hlast. eauto.
    + exists (streamed regenerated.1 now2 data2).
      rewrite (dataSources_onRegenerate_onDownloadProgress _ _ _ _ _ _ _ _
                 Hparse2).
      rewrite at_index_updateChat_eq; [auto|].
      rewrite Hregen, at_index_updateChat_eq by exact Hidx. eauto.
Qed.

(** What a decoded chunk does to the closure variables and to the requests. *)
Lemma decoded_chunk_requests :
  forall (openLongReply : bool)
         (JSON_parse : jsstring -> option ConversationResponse.t)
         (index : Z) (k : Closure) (now responseText : jsstring) (s : View)
         (data : ConversationResponse.t),
    JSON_parse (lastChunk responseText) = Some data ->
    let again := openLongReply && truncated data in
    let k' :=
      mkClosure []
        (ConversationRequest.mk
           (ConversationRequest.conversationId (options k))
           (ConversationResponse.id data))
        (ConversationResponse.text data) in
    let reissued :=
      if again then [Request.mk [] (options k') (controller s)] else [] in
    let sent :=
      onConversation_onDownloadProgress openLongReply JSON_parse k now
        responseText s in
    let regenerated :=
      onRegenerate_onDownloadProgress openLongReply JSON_parse index k now
        responseText s in
    sent.1 = (if again then k' else k)
    /\ requests sent.2 = requests s ++ reissued
    /\ pending sent.2 = (pending s + length reissued)%nat
    /\ regenerated.1 = (if again then k' else k)
    /\ requests regenerated.2 = requests s ++ reissued
    /\ pending regenerated.2 = (pending s + length reissued)%nat.
Proof.
  intros olr parse index k now buf s data Hparse again k' reissued sent
    regenerated.
  subst sent regenerated.
  rewrite (onConversation_onDownloadProgress_decoded _ _ _ _ _ _ _ Hparse).
  rewrite (onRegenerate_onDownloadProgress_decoded _ _ _ _ _ _ _ _ Hparse).
  subst reissued again. fold (resumed k data) in k'. subst k'.
  destruct (olr && truncated data); simpl.
  - unfold requests. simpl. rewrite !omap_app. simpl.
    rewrite !app_nil_r. repeat split; lia.
  - destruct (olr && bool_decide (finish_reason_of data = None)); simpl;
      unfold requests; simpl; rewrite ?omap_app; simpl;
      rewrite ?app_nil_r; repeat split; lia.
Qed.

(** C3: when the long-reply feature is on and the decoded chunk's finish
    reason is ['length'], the handler sets [options.parentMessageId] to
    the chunk's [id], [lastText] to the chunk's [text] and [message] to
    the empty string, and then issues one further request with these
    values and the signal of the current controller; when the finish
    reason is anything else (or cannot be read), or the feature is off,
    the closure variables stay as they are and no request is issued. *)
Theorem C3_continuation :
  forall (openLongReply : bool)
         (JSON_parse : jsstring -> option ConversationResponse.t)
         (index : Z) (k : Closure) (now responseText : jsstring) (s : View)
         (data : ConversationResponse.t),
    JSON_parse (lastChunk responseText) = Some data ->
    let again := openLongReply && truncated data in
    let k' :=
      mkClosure []
        (ConversationRequest.mk
           (ConversationRequest.conversationId (options k))
           (ConversationResponse.id data))
        (ConversationResponse.text data) in
    let reissued :=
      if again then [Request.mk [] (options k') (controller s)] else [] in
    let sent :=
      onConversation_onDownloadProgress openLongReply JSON_parse k now
        responseText s in
    let regenerated :=
      onRegenerate_onDownloadProgress openLongReply JSON_parse index k now
        responseText s in
    sent.1 = (if again then k' else k)
    /\ requests sent.2 = requests s ++ reissued
    /\ pending sent.2 = (pending s + length reissued)%nat
    /\ regenerated.1 = (if again then k' else k)
    /\ requests regenerated.2 = requests s ++ reissued
    /\ pending regenerated.2 = (pending s + length reissued)%nat.
Proof. exact decoded_chunk_requests. Qed.

(** ** The claims about stopping and about errors *)

Lemma strictEqU_true (a : option jsstring) (b : jsstring) :
  strictEqU a b = true <-> a = Some b.
Proof.
  destruct a as [x|]; simpl; [|split; discriminate].
  unfold strictEq. rewrite bool_decide_eq_true. split; congruence.
Qed.

Lemma strictEqU_false (a : option jsstring) (b : jsstring) :
  strictEqU a b = false <-> a ≠ Some b.
Proof.
  rewrite <- strictEqU_true. destruct (strictEqU a b); split; congruence.
Qed.

Lemma updateChatSome_loading_false index data :
  Store.updateChatSome index Partial.loading_false data
  = markNotLoading index data.
Proof. apply updateChatSome_alter. Qed.

Lemma map_markNotLoading {B} (f : Message.t -> B) index data :
  (forall m, f (notLoading m) = f m) ->
  map f (markNotLoading index data) = map f data.
Proof.
  intros Hf. unfold markNotLoading. destruct (0 <=? index); [|reflexivity].
  generalize (Z.to_nat index) as i. intros i. revert i.
  induction data as [|m data IH]; intros [|i]; simpl; auto.
  - rewrite Hf. reflexivity.
  - f_equal. apply IH.
Qed.

(** C4: stopping is silent.  While loading, [handleStop] aborts the
    current controller and clears the loading flag, leaving the transcript
    alone.  When the awaited call is rejected with the message
    ['canceled'], the send and the regenerate only mark the pending
    message as no longer loading: the transcript keeps its length, every
    text and every error flag, no request is issued, and the loading flag
    of the view is cleared. *)
Theorem C4_cancellation_is_silent :
  forall (t : string -> jsstring) (index : Z) (k : Closure)
         (now : jsstring) (error : Error.t) (s s' : View),
    loading s = true ->
    Error.message error = Some (lit "canceled") ->
    let stopped := handleStop s in
    let sent := onConversation_rejected t k now error s' in
    let regenerated := onRegenerate_rejected t index k now error s' in
    (aborted stopped = <[controller s := true]> (aborted s)
     /\ trace stopped = trace s ++ [Abort (controller s)]
     /\ loading stopped = false
     /\ dataSources stopped = dataSources s)
    /\ (trace sent
        = trace s' ++ [UpdateChatSome (lastIndex s') Partial.loading_false;
                       ScrollToBottomIfAtBottom]
        /\ dataSources sent = markNotLoading (lastIndex s') (dataSources s')
        /\ map Message.text (dataSources sent)
           = map Message.text (dataSources s')
        /\ map Message.error (dataSources sent)
           = map Message.error (dataSources s')
        /\ requests sent = requests s'
        /\ loading sent = false)
    /\ (trace regenerated
        = trace s' ++ [UpdateChatSome index Partial.loading_false]
        /\ dataSources regenerated = markNotLoading index (dataSources s')
        /\ map Message.text (dataSources regenerated)
           = map Message.text (dataSources s')
        /\ map Message.error (dataSources regenerated)
           = map Message.error (dataSources s')
        /\ requests regenerated = requests s'
        /\ loading regenerated = false).
Proof.
  intros t index k now error s s' Hloading Hmsg stopped sent regenerated.
  split; [|split].
  - subst stopped. unfold handleStop. rewrite Hloading. simpl. auto.
  - subst sent. unfold onConversation_rejected.
    rewrite (proj2 (strictEqU_true _ _) Hmsg). simpl.
    rewrite updateChatSome_loading_false.
    rewrite !map_markNotLoading by reflexivity.
    unfold requests. simpl. rewrite !omap_app. simpl.
    rewrite !app_nil_r, <- app_assoc. auto 10.
  - subst regenerated. unfold onRegenerate_rejected.
    rewrite (proj2 (strictEqU_true _ _) Hmsg). simpl.
    rewrite updateChatSome_loading_false.
    rewrite !map_markNotLoading by reflexivity.
    unfold requests. simpl. rewrite !omap_app. simpl.
    rewrite !app_nil_r. auto 10.
Qed.

(** C5: an error of the awaited call other than a cancellation is caught
    and shown in the transcript, and nothing is retried.  In the send, a
    streaming message whose text is not empty gets the error message
    appended in brackets on a new line; otherwise the message is replaced
    by an entry with the error message as text and the error flag set.  In
    the regenerate the message is replaced by such an entry.  Either way
    the loading flags are cleared and no request is issued. *)
Theorem C5_errors_are_shown_inline :
  forall (t : string -> jsstring) (index : Z) (k : Closure)
         (now : jsstring) (error : Error.t) (s : View) (chat : Message.t),
    Error.message error ≠ Some (lit "canceled") ->
    at_index (dataSources s) (lastIndex s) = Some chat ->
    is_Some (at_index (dataSources s) index) ->
    let errorMessage := default (t "common.wrong") (Error.message error) in
    let entry :=
      Message.mk now errorMessage false true (Some false) None
        (requestOptionsOf (message k) (options k)) in
    let appended :=
      Message.mk (Message.dateTime chat)
        (Message.text chat ++ [LF] ++ lit "[" ++ errorMessage ++ lit "]")
        (Message.inversion chat) false (Some false)
        (Message.conversationOptions chat) (Message.requestOptions chat) in
    let sent := onConversation_rejected t k now error s in
    let regenerated := onRegenerate_rejected t index k now error s in
    (trace sent
     = trace s
       ++ (if bool_decide (Message.text chat ≠ [])
           then [UpdateChatSome (lastIndex s)
                   (Partial.text_error_loading (Message.text appended)
                      false false)]
           else [UpdateChat (lastIndex s) entry; ScrollToBottomIfAtBottom])
     /\ at_index (dataSources sent) (lastIndex s)
        = Some (if bool_decide (Message.text chat ≠ []) then appended
                else entry)
     /\ length (dataSources sent) = length (dataSources s)
     /\ (forall i : nat, Z.of_nat i ≠ lastIndex s ->
                         dataSources sent !! i = dataSources s !! i)
     /\ requests sent = requests s
     /\ loading sent = false)
    /\ (trace regenerated = trace s ++ [UpdateChat index entry]
        /\ at_index (dataSources regenerated) index = Some entry
        /\ length (dataSources regenerated) = length (dataSources s)
        /\ (forall i : nat, Z.of_nat i ≠ index ->
                            dataSources regenerated !! i = dataSources s !! i)
        /\ requests regenerated = requests s
        /\ loading regenerated = false).
Proof.
  intros t index k now error s chat Hmsg Hchat Hidx errorMessage entry
    appended sent regenerated.
  apply strictEqU_false in Hmsg.
  split.
  - subst sent. unfold onConversation_rejected. rewrite Hmsg.
    unfold getChatByUuidAndIndex, Store.getChatByUuidAndIndex. simpl.
    change (lastIndex (settle s)) with (lastIndex s).
    rewrite Hchat. fold errorMessage.
    assert (Htest : truthy (Message.text chat)
                    && negb (strictEq (Message.text chat) [])
                    = bool_decide (Message.text chat ≠ [])).
    { unfold strictEq. destruct (Message.text chat); reflexivity. }
    rewrite Htest. case_bool_decide as Htext; simpl.
    + unfold Store.updateChatSome, Store.getChatByUuidAndIndex.
      rewrite Hchat. rewrite at_index_updateChat_eq by eauto.
      rewrite length_updateChat.
      repeat split; auto using lookup_updateChat_ne.
      unfold requests. simpl. rewrite !omap_app. simpl.
      rewrite !app_nil_r. reflexivity.
    + rewrite at_index_updateChat_eq by eauto.
      rewrite length_updateChat, <- app_assoc.
      repeat split; auto using lookup_updateChat_ne.
      unfold requests. simpl. rewrite !omap_app. simpl.
      rewrite !app_nil_r. reflexivity.
  - subst regenerated. unfold onRegenerate_rejected. rewrite Hmsg. simpl.
    fold errorMessage. rewrite at_index_updateChat_eq by exact Hidx.
    rewrite length_updateChat.
    repeat split; auto using lookup_updateChat_ne.
    unfold requests. simpl. rewrite !omap_app. simpl.
    rewrite !app_nil_r. reflexivity.
Qed.

(** ** The claims about the actions of the user *)

Lemma not_blank_test (S : jsstring) :
  ¬ blank S -> negb (truthy S) || strictEq (trim S) [] = false.
Proof.
  intros H. destruct (negb (truthy S) || strictEq (trim S) []) eqn:E; auto.
  exfalso. apply H. apply blank_test. exact E.
Qed.

(** C6: an empty prompt is a no-op.  When the prompt is empty or holds
    only whitespace, [handleSubmit] and [onConversation] return at once
    and leave the whole view as it is: transcript, loading flag, trace of
    calls (so no message is added and no request issued).  The send button
    is disabled exactly when the view is loading or the prompt is empty or
    whitespace-only. *)
Theorem C6_empty_prompt_is_a_no_op :
  forall (now1 now2 : jsstring) (s : View),
    (blank (prompt s) ->
       handleSubmit now1 now2 s = (Returned, s)
       /\ onConversation now1 now2 s = (Returned, s))
    /\ (buttonDisabled s = true <-> loading s = true \/ blank (prompt s)).
Proof.
  intros now1 now2 s. split.
  - intros Hblank. apply blank_test in Hblank.
    unfold handleSubmit, onConversation. rewrite Hblank.
    destruct (loading s); auto.
  - unfold buttonDisabled. rewrite <- orb_assoc, orb_true_iff, blank_test.
    reflexivity.
Qed.

(** The user's message does not count as context. *)
Lemma conversationList_after_user (v s : View) (m : Message.t) :
  dataSources v = dataSources s ++ [m] ->
  Message.inversion m = true ->
  conversationList v = conversationList s.
Proof.
  intros Hv Hm. unfold conversationList. rewrite Hv.
  rewrite filter_app, filter_cons_False, filter_nil, app_nil_r; [reflexivity|].
  rewrite Hm. simpl. discriminate.
Qed.

Lemma filter_no_context (data : list Message.t) :
  Forall (fun m' => Message.inversion m' = true
                    \/ Message.conversationOptions m' = None) data ->
  filter (fun item => negb (Message.inversion item)
                      && bool_decide
                           (is_Some (Message.conversationOptions item))
                      = true) data = [].
Proof.
  induction 1 as [|m data Hm _ IH]; [reflexivity|].
  rewrite filter_cons_False; [exact IH|].
  destruct Hm as [-> | ->]; simpl; [discriminate|].
  rewrite andb_false_r. discriminate.
Qed.

(** The code's [lastContext] is the spec's most recent context. *)
Lemma lastContext_mostRecentContext (s : View)
    (context : option ConversationRequest.t) :
  mostRecentContext (dataSources s) context ->
  last (conversationList s) ≫= Message.conversationOptions = context.
Proof.
  unfold conversationList.
  intros [before m after c Hdata Hinv Hopt Hafter | Hnone].
  - rewrite Hdata, filter_app, filter_cons_True.
    + rewrite (filter_no_context after Hafter).
      rewrite last_snoc. simpl. exact Hopt.
    + rewrite Hinv, Hopt. reflexivity.
  - rewrite (filter_no_context _ Hnone). reflexivity.
Qed.

(** [onConversation] past its guards, up to its [await]. *)
Lemma onConversation_passes (now1 now2 : jsstring) (s : View) :
  loading s = false ->
  ¬ blank (prompt s) ->
  let c := length (aborted s) in
  let opts :=
    contextOptions (usingContext s)
      (last (conversationList s) ≫= Message.conversationOptions) in
  let user :=
    Message.mk now1 (prompt s) true false None None
      (RequestOptions.mk (prompt s) None) in
  let placeholder :=
    Message.mk now2 thinking false false (Some true) None
      (requestOptionsOf (prompt s) opts) in
  onConversation now1 now2 s
  = (Awaiting (mkClosure (prompt s) opts (Some [])),
     mkView (dataSources s ++ [user; placeholder]) [] true (usingContext s)
       c (aborted s ++ [false]) (S (pending s))
       (trace s ++ [NewAbortController c; AddChat user; ScrollToBottom;
                    AddChat placeholder; ScrollToBottom;
                    FetchChatAPIProcess
                      (Request.mk (prompt s) opts c)])).
Proof.
  destruct s as [d p l u c0 a n tr].
  cbn [dataSources prompt loading usingContext controller aborted pending
       trace].
  intros -> Hprompt.
  set (user := Message.mk now1 p true false None None
                 (RequestOptions.mk p None)).
  unfold onConversation. cbn [loading prompt].
  rewrite (not_blank_test _ Hprompt).
  cbv zeta. cbn [usingContext set_dataSources newAbortController emit].
  set (s0 := mkView d p false u c0 a n tr).
  fold user.
  set (v := set_prompt []
              (set_loading true
                 (scrollToBottom (addChat user (newAbortController s0))))).
  rewrite (conversationList_after_user v s0 user) by reflexivity.
  unfold contextOptions. change (usingContext v) with u.
  generalize (match last (conversationList s0) ≫= Message.conversationOptions
              with
              | Some c => if u then c else ConversationRequest.empty
              | None => ConversationRequest.empty
              end).
  intros opts. subst v s0.
  cbv [onConversation_fetchChatAPIOnce fetchChatAPIProcess scrollToBottom
       addChat set_prompt set_loading newAbortController emit set_pending
       set_dataSources Store.addChat dataSources prompt loading usingContext
       controller aborted pending trace message options].
  rewrite <- !app_assoc. reflexivity.
Qed.

(** [onRegenerate] past its guard on a message of the transcript, up to
    its [await]. *)
Lemma onRegenerate_passes (index : Z) (now : jsstring) (s : View)
    (item : Message.t) :
  loading s = false ->
  at_index (dataSources s) index = Some item ->
  let c := length (aborted s) in
  let msg := RequestOptions.prompt (Message.requestOptions item) in
  let opts :=
    default ConversationRequest.empty
      (RequestOptions.options (Message.requestOptions item)) in
  let blank_reply :=
    Message.mk now [] false false (Some true) None
      (requestOptionsOf msg opts) in
  onRegenerate index now s
  = (Awaiting (mkClosure msg opts (Some [])),
     mkView (Store.updateChat index blank_reply (dataSources s)) (prompt s)
       true (usingContext s) c (aborted s ++ [false]) (S (pending s))
       (trace s ++ [NewAbortController c; UpdateChat index blank_reply;
                    FetchChatAPIProcess (Request.mk msg opts c)])).
Proof.
  intros Hloading Hitem c msg opts blank_reply.
  unfold onRegenerate. rewrite Hloading.
  change (dataSources (newAbortController s)) with (dataSources s).
  rewrite Hitem.
  assert (Hopts : match RequestOptions.options (Message.requestOptions item)
                  with
                  | Some o => o
                  | None => ConversationRequest.empty
                  end = opts) by reflexivity.
  rewrite Hopts. fold msg. fold blank_reply.
  clearbody blank_reply opts msg.
  cbv [onRegenerate_fetchChatAPIOnce fetchChatAPIProcess updateChat
       set_loading newAbortController emit set_pending set_dataSources
       dataSources prompt loading usingContext controller aborted pending
       trace message options].
  rewrite <- !app_assoc. reflexivity.
Qed.

Lemma requests_app_trace (s : View) (added : list call) d p l u c a n :
  requests (mkView d p l u c a n (trace s ++ added))
  = requests s
    ++ omap (fun c => match c with
                      | FetchChatAPIProcess r => Some r
                      | _ => None
                      end) added.
Proof. unfold requests. simpl. apply omap_app. Qed.


(** The handler of [onConversation] touches the last message only. *)
Lemma onConversation_onDownloadProgress_frame
    openLongReply JSON_parse k now responseText s :
  let s2 :=
    (onConversation_onDownloadProgress openLongReply JSON_parse k now
       responseText s).2 in
  length (dataSources s2) = length (dataSources s)
  /\ forall i : nat, Z.of_nat i ≠ lastIndex s ->
                     dataSources s2 !! i = dataSources s !! i.
Proof.
  intros s2. subst s2.
  destruct (JSON_parse (lastChunk responseText)) as [data|] eqn:Hparse.
  - rewrite (dataSources_onConversation_onDownloadProgress _ _ _ _ _ _ _
               Hparse).
    split; [apply length_updateChat|].
    intros i Hi. apply lookup_updateChat_ne. exact Hi.
  - unfold onConversation_onDownloadProgress. rewrite Hparse. auto.
Qed.

(** C8: a send that passes its guards appends exactly two messages, and
    does so before it calls the API: the user's message (inversion true,
    error false, the submitted text), then the placeholder (inversion
    false, loading true, text '思考中'); the calls it makes are, in this
    order, the new controller, the two additions with their scrolls, and
    the request.  Every later update of that send (by the progress
    handler, on fulfilment, on rejection) keeps the length of the
    transcript and every message but the last. *)
Theorem C8_two_messages_then_last_index :
  forall (openLongReply : bool)
         (JSON_parse : jsstring -> option ConversationResponse.t)
         (t : string -> jsstring) (now1 now2 now responseText : jsstring)
         (k : Closure) (error : Error.t) (s s1 : View),
    loading s = false ->
    ¬ blank (prompt s) ->
    let sent := onConversation now1 now2 s in
    (exists (opts : ConversationRequest.t) (c : nat),
        let user :=
          Message.mk now1 (prompt s) true false None None
            (RequestOptions.mk (prompt s) None) in
        let placeholder :=
          Message.mk now2 thinking false false (Some true) None
            (requestOptionsOf (prompt s) opts) in
        sent.1 = Awaiting (mkClosure (prompt s) opts (Some []))
        /\ dataSources sent.2 = dataSources s ++ [user; placeholder]
        /\ trace sent.2
           = trace s ++ [NewAbortController c; AddChat user; ScrollToBottom;
                         AddChat placeholder; ScrollToBottom;
                         FetchChatAPIProcess
                           (Request.mk (prompt s) opts c)])
    /\ (forall s2,
          s2 = (onConversation_onDownloadProgress openLongReply JSON_parse k
                  now responseText s1).2
          \/ s2 = onConversation_fulfilled s1
          \/ s2 = onConversation_rejected t k now error s1 ->
          length (dataSources s2) = length (dataSources s1)
          /\ forall i : nat, Z.of_nat i ≠ lastIndex s1 ->
                             dataSources s2 !! i = dataSources s1 !! i).
Proof.
  intros olr parse t now1 now2 now buf k error s s1 Hloading Hprompt sent.
  split.
  - subst sent. rewrite (onConversation_passes _ _ _ Hloading Hprompt).
    cbv zeta. cbn [fst snd dataSources trace].
    eexists. eexists. split; [reflexivity|]. split; reflexivity.
  - intros s2 [-> | [-> | ->]].
    + apply onConversation_onDownloadProgress_frame.
    + unfold onConversation_fulfilled,
        onConversation_fetchChatAPIOnce_fulfilled.
      cbn [dataSources set_loading updateChatSome emit set_dataSources].
      change (lastIndex (settle s1)) with (lastIndex s1).
      change (dataSources (settle s1)) with (dataSources s1).
      split; [apply length_updateChatSome|].
      intros i Hi. apply lookup_updateChatSome_ne. exact Hi.
    + unfold onConversation_rejected, getChatByUuidAndIndex.
      change (lastIndex (settle s1)) with (lastIndex s1).
      change (dataSources (settle s1)) with (dataSources s1).
      destruct (strictEqU (Error.message error) (lit "canceled")).
      * cbn [dataSources set_loading updateChatSome emit set_dataSources
             scrollToBottomIfAtBottom].
        change (dataSources (settle s1)) with (dataSources s1).
        split; [apply length_updateChatSome|].
        intros i Hi. apply lookup_updateChatSome_ne. exact Hi.
      * destruct (Store.getChatByUuidAndIndex (lastIndex s1) (dataSources s1))
          as [chat|];
          [destruct (truthy (Message.text chat)
                     && negb (strictEq (Message.text chat) []))|];
          cbn [dataSources set_loading updateChatSome updateChat emit
               set_dataSources scrollToBottomIfAtBottom];
          change (dataSources (settle s1)) with (dataSources s1);
          (split; [first [apply length_updateChatSome
                         |apply length_updateChat]|]);
          intros i Hi;
          first [apply lookup_updateChatSome_ne; exact Hi
                |apply lookup_updateChat_ne; exact Hi].
Qed.

(** C10: the request of a send carries the previous conversation's
    options exactly when the context toggle is on and some earlier message
    that is not the user's carries conversation options; the options are
    then those of the most recent such message, and they are empty
    otherwise.  The placeholder records the same options. *)
Theorem C10_context_of_a_send :
  forall (now1 now2 : jsstring) (s : View)
         (context : option ConversationRequest.t),
    loading s = false ->
    ¬ blank (prompt s) ->
    mostRecentContext (dataSources s) context ->
    let sent := onConversation now1 now2 s in
    let opts :=
      match context with
      | Some c => if usingContext s then c else ConversationRequest.empty
      | None => ConversationRequest.empty
      end in
    sent.1 = Awaiting (mkClosure (prompt s) opts (Some []))
    /\ requests sent.2
       = requests s ++ [Request.mk (prompt s) opts (controller sent.2)]
    /\ last (dataSources sent.2)
       = Some (Message.mk now2 thinking false false (Some true) None
                 (RequestOptions.mk (prompt s) (Some opts))).
Proof.
  intros now1 now2 s context Hloading Hprompt Hcontext sent opts.
  subst sent. rewrite (onConversation_passes _ _ _ Hloading Hprompt).
  cbv zeta. rewrite (lastContext_mostRecentContext _ _ Hcontext).
  fold (contextOptions (usingContext s) context) in opts. fold opts.
  cbn [fst snd dataSources controller].
  split; [reflexivity|]. split.
  - rewrite requests_app_trace. reflexivity.
  - change (dataSources s ++ [?a; ?b]) with (dataSources s ++ [a] ++ [b]).
    rewrite app_assoc, last_snoc. reflexivity.
Qed.

(** ** The loading guard *)

(** C9, as the code has it: while the loading flag is set, submitting,
    regenerating, deleting, clearing and exporting all return at once and
    leave the whole view as it is (transcript, trace of calls, requests in
    flight), so none of them starts a chat request; and with the
    long-reply feature off the progress handlers issue no request either.
    With the feature on, a handler may issue a continuation request while
    the request it reports on is still in flight. *)
Theorem C9_actions_wait_while_loading :
  forall (JSON_parse : jsstring -> option ConversationResponse.t)
         (index : Z) (now now1 now2 responseText : jsstring) (k : Closure)
         (s s1 : View),
    loading s = true ->
    (handleSubmit now1 now2 s = (Returned, s)
     /\ onConversation now1 now2 s = (Returned, s)
     /\ onRegenerate index now s = (Returned, s)
     /\ handleDelete index s = s
     /\ handleClear s = s
     /\ handleExport s = s)
    /\ (let sent :=
          onConversation_onDownloadProgress false JSON_parse k now
            responseText s1 in
        let regenerated :=
          onRegenerate_onDownloadProgress false JSON_parse index k now
            responseText s1 in
        requests sent.2 = requests s1
        /\ pending sent.2 = pending s1
        /\ requests regenerated.2 = requests s1
        /\ pending regenerated.2 = pending s1).
Proof.
  intros parse index now now1 now2 buf k s s1 Hloading. split.
  - unfold handleSubmit, onConversation, onRegenerate, handleDelete,
      handleClear, handleExport. rewrite Hloading. auto 10.
  - cbv zeta.
    destruct (parse (lastChunk buf)) as [data|] eqn:Hparse.
    + pose proof (decoded_chunk_requests false parse index k now buf s1 data
                    Hparse) as H.
      cbv zeta in H. simpl in H. rewrite !app_nil_r, !Nat.add_0_r in H.
      tauto.
    + unfold onConversation_onDownloadProgress,
        onRegenerate_onDownloadProgress. rewrite Hparse. auto.
Qed.

(** C9, as the spec has it, fails on the code: after the prompt of
    [Sample.idle] is sent one request is in flight and the view is
    loading; the progress handler of that request, run on a buffer whose
    last line has the finish reason ['length'] with the long-reply feature
    on, issues a second request before the first has settled. *)
Lemma C9_two_requests_in_flight :
  let sent := onConversation (lit "10:02") (lit "10:02") Sample.idle in
  let streaming :=
    onConversation_onDownloadProgress true Sample.parse Sample.closure
      (lit "10:03") Sample.buffer sent.2 in
  sent.1 = Awaiting Sample.closure
  /\ loading sent.2 = true
  /\ pending sent.2 = 1%nat
  /\ loading streaming.2 = true
  /\ length (requests streaming.2) = 2%nat
  /\ pending streaming.2 = 2%nat
  /\ ¬ (pending streaming.2 <= 1)%nat.
Proof.
  cbv zeta. repeat split; try (vm_compute; reflexivity).
  vm_compute. lia.
Qed.

(** C5, as the spec has it, fails on the code for the request of a
    long-reply continuation.  The sample send receives a line cut for
    length with the feature on, and its handler issues the continuation
    request; the first request is fulfilled; the continuation request
    then fails with a network error.  Nothing of the script block runs on
    that failure: the transcript shows no error, no error flag is set,
    and no call is made. *)
Lemma C5_continuation_error_is_not_shown :
  let sent := onConversation (lit "10:02") (lit "10:02") Sample.idle in
  let cut :=
    onConversation_onDownloadProgress true Sample.parse Sample.closure
      (lit "10:03") Sample.buffer sent.2 in
  let done := onConversation_fulfilled cut.2 in
  let failed := continuation_rejected Sample.failure done in
  Error.message Sample.failure ≠ Some (lit "canceled")
  /\ sent.1 = Awaiting Sample.closure
  /\ length (requests cut.2) = 2%nat
  /\ pending done = 1%nat
  /\ trace failed = trace done
  /\ pending failed = 0%nat
  /\ map (fun m => (Message.text m, Message.error m)) (dataSources failed)
     = [(lit "q", false); (lit "a", false); (lit "hi", false);
        (lit "Hel", false)].
Proof.
  cbv zeta.
  split; [vm_compute; discriminate|].
  split; [vm_compute; reflexivity|].
  split; [vm_compute; reflexivity|].
  split; [vm_compute; reflexivity|].
  split; [vm_compute; reflexivity|].
  split; vm_compute; reflexivity.
Qed.

(** ** The theorems at sample inputs *)

(** A decoded chunk overwrites the placeholder of the sample send. *)
Lemma C2_witness :
  exists m,
    at_index
      (dataSources
         (onConversation_onDownloadProgress true Sample.parse Sample.closure
            (lit "10:03") Sample.buffer Sample.sending).2)
      (lastIndex Sample.sending) = Some m
    /\ Message.text m = lit "Hel".
Proof.
  destruct (C2_last_chunk_wins true Sample.parse 1 Sample.closure
              (lit "10:03") Sample.buffer Sample.sending Sample.data)
    as [(m & rest & Hm & Ht & _) _].
  - vm_compute. reflexivity.
  - vm_compute. discriminate.
  - eexists. vm_compute. reflexivity.
  - exists m. split; [exact Hm | exact Ht].
Defined.

(** The sample chunk, cut for length, resumes the sample send. *)
Lemma C3_witness :
  (onConversation_onDownloadProgress true Sample.parse Sample.closure
     (lit "10:03") Sample.buffer Sample.sending).1
  = mkClosure []
      (ConversationRequest.mk (Some (lit "c0")) (Some (lit "m1")))
      (Some (lit "Hel")).
Proof.
  destruct (C3_continuation true Sample.parse 1 Sample.closure (lit "10:03")
              Sample.buffer Sample.sending Sample.data) as (H & _).
  - vm_compute. reflexivity.
  - exact H.
Defined.

(** Stopping the sample send and the cancellation that follows keep every text. *)
Lemma C4_witness :
  loading (handleStop Sample.sending) = false
  /\ map Message.text
       (dataSources
          (onConversation_rejected Sample.t Sample.closure (lit "10:03")
             Sample.cancellation (handleStop Sample.sending)))
     = [lit "q"; lit "a"; lit "hi"; thinking].
Proof.
  destruct (C4_cancellation_is_silent Sample.t 1 Sample.closure (lit "10:03")
              Sample.cancellation Sample.sending (handleStop Sample.sending))
    as ((_ & _ & Hstop & _) & (_ & _ & Htext & _) & _).
  - vm_compute. reflexivity.
  - vm_compute. reflexivity.
  - split; [exact Hstop | exact Htext].
Defined.

(** A network error is appended to the placeholder of the sample send. *)
Lemma C5_witness :
  Message.text
    <$> at_index
          (dataSources
             (onConversation_rejected Sample.t Sample.closure (lit "10:03")
                Sample.failure Sample.sending)) 3
  = Some (thinking ++ [LF] ++ lit "[Network Error]").
Proof.
  destruct (C5_errors_are_shown_inline Sample.t 1 Sample.closure
              (lit "10:03") Sample.failure Sample.sending
              (Message.mk (lit "10:02") thinking false false (Some true) None
                 (RequestOptions.mk (lit "hi")
                    (Some (ConversationRequest.mk (Some (lit "c0"))
                             (Some (lit "m0")))))))
    as ((_ & H & _) & _).
  - vm_compute. discriminate.
  - vm_compute. reflexivity.
  - eexists. vm_compute. reflexivity.
  - change (lastIndex Sample.sending) with 3 in H. rewrite H. reflexivity.
Defined.

(** A prompt of blanks: nothing happens and the button is disabled. *)
Lemma C6_witness :
  handleSubmit (lit "10:02") (lit "10:02") Sample.idle_blank
  = (Returned, Sample.idle_blank)
  /\ buttonDisabled Sample.idle_blank = true.
Proof.
  destruct (C6_empty_prompt_is_a_no_op (lit "10:02") (lit "10:02")
              Sample.idle_blank) as [Hnoop Hbutton].
  assert (Hblank : blank (prompt Sample.idle_blank)).
  { repeat constructor. }
  split.
  - exact (proj1 (Hnoop Hblank)).
  - apply Hbutton. right. exact Hblank.
Defined.


(** The sample send leaves four messages in the transcript. *)
Lemma C8_witness :
  length (dataSources (onConversation (lit "10:02") (lit "10:02")
                         Sample.idle).2) = 4%nat.
Proof.
  destruct (C8_two_messages_then_last_index true Sample.parse Sample.t
              (lit "10:02") (lit "10:02") (lit "10:03") Sample.buffer
              Sample.closure Sample.failure Sample.idle Sample.sending)
    as ((opts & c & _ & Hdata & _) & _).
  - reflexivity.
  - intros H. inversion H as [|? ? Hh _]. vm_compute in Hh. discriminate.
  - rewrite Hdata, length_app. reflexivity.
Defined.

(** While the sample send is loading, submitting and clearing do nothing. *)
Lemma C9_witness :
  handleSubmit (lit "10:03") (lit "10:03") Sample.sending
  = (Returned, Sample.sending)
  /\ handleClear Sample.sending = Sample.sending.
Proof.
  destruct (C9_actions_wait_while_loading Sample.parse 1 (lit "10:03")
              (lit "10:03") (lit "10:03") Sample.buffer Sample.closure
              Sample.sending Sample.sending)
    as ((Hsubmit & _ & _ & _ & Hclear & _) & _).
  - vm_compute. reflexivity.
  - split; [exact Hsubmit | exact Hclear].
Defined.

(** The sample send carries the options of the stored reply. *)
Lemma C10_witness :
  requests (onConversation (lit "10:02") (lit "10:02") Sample.idle).2
  = [Request.mk (lit "hi")
       (ConversationRequest.mk (Some (lit "c0")) (Some (lit "m0"))) 1%nat].
Proof.
  destruct (C10_context_of_a_send (lit "10:02") (lit "10:02") Sample.idle
              (Some (ConversationRequest.mk (Some (lit "c0"))
                       (Some (lit "m0")))))
    as (_ & H & _).
  - reflexivity.
  - intros H. inversion H as [|? ? Hh _]. vm_compute in Hh. discriminate.
  - eapply (mostRecentContext_found _ [_] _ []).
    + vm_compute. reflexivity.
    + reflexivity.
    + reflexivity.
    + constructor.
  - exact H.
Defined.

(** ** Checks on concrete values *)

Example lastIndexOf_two_lines :
  lastIndexOf (lit "ab" ++ [LF] ++ lit "cd" ++ [LF]) LF 4 = 2.
Proof. reflexivity. Qed.

Example lastIndexOf_lone_newline : lastIndexOf [LF] LF (-1) = 0.
Proof. reflexivity. Qed.

Example lastIndexOf_empty : lastIndexOf [] LF (-2) = -1.
Proof. reflexivity. Qed.

Example lastChunk_two_lines :
  lastChunk (lit "ab" ++ [LF] ++ lit "cd" ++ [LF]) = [LF] ++ lit "cd" ++ [LF].
Proof. reflexivity. Qed.

Example lastChunk_one_line : lastChunk (lit "ab" ++ [LF]) = lit "ab" ++ [LF].
Proof. reflexivity. Qed.

Example lastChunk_sample : lastChunk Sample.buffer = [LF] ++ Sample.line.
Proof. vm_compute. reflexivity. Qed.

Example parse_sample : Sample.parse (lastChunk Sample.buffer) = Some Sample.data.
Proof. vm_compute. reflexivity. Qed.

Example trim_blank : trim (lit "  " ++ [LF; 12288%N]) = [].
Proof. reflexivity. Qed.

Example trim_inner : trim (lit " a b ") = lit "a b".
Proof. reflexivity. Qed.

Example setup_resets_loading :
  map Message.loading
    (dataSources
       (setup false
          [Message.mk [] (lit "a") false false (Some true) None
             (RequestOptions.mk [] None)]))
  = [Some false].
Proof. reflexivity. Qed.

Example regenerate_outside_the_transcript :
  (onRegenerate 7 (lit "10:02") Sample.idle).1 = ThrewTypeError.
Proof. vm_compute. reflexivity. Qed.

Example undefined_accumulator :
  add None (lit "x") = lit "undefinedx".
Proof. reflexivity. Qed.

(** * Further properties of the script block *)

(** ** The text that is decoded *)

(** X1: the text handed to the decoder is a suffix of the response buffer,
    not empty unless the buffer is, and it is one line: a newline can
    only be its first or its last character.  Picking the last chunk of
    a chunk gives the chunk again. *)
Theorem lastChunk_is_one_line :
  forall buffer : jsstring,
    (exists before, buffer = before ++ lastChunk buffer)
    /\ (lastChunk buffer = [] <-> buffer = [])
    /\ (forall j : nat,
          (0 < j)%nat -> (j + 1 < length (lastChunk buffer))%nat ->
          lastChunk buffer !! j ≠ Some LF)
    /\ lastChunk (lastChunk buffer) = lastChunk buffer.
Proof.
  intros buffer.
  assert (Hinner : forall j : nat,
             (0 < j)%nat -> (j + 1 < length (lastChunk buffer))%nat ->
             lastChunk buffer !! j ≠ Some LF).
  { destruct (lastLine_lastChunk buffer) as [i Hi Hlt Hmax | Hnone].
    - intros j Hj Hlen. rewrite lookup_drop. rewrite length_drop in Hlen.
      apply Hmax; lia.
    - intros j _ Hlen. apply Hnone. exact Hlen. }
  split; [|split; [|split]].
  - destruct (lastLine_lastChunk buffer) as [i Hi Hlt Hmax | Hnone].
    + exists (take i buffer). symmetry. apply take_drop.
    + exists []. reflexivity.
  - destruct (lastLine_lastChunk buffer) as [i Hi Hlt Hmax | Hnone].
    + split.
      * intros H. apply (f_equal length) in H. rewrite length_drop in H.
        simpl in H. lia.
      * intros ->. simpl in Hlt. lia.
    + tauto.
  - exact Hinner.
  - apply (lastLine_unique (lastChunk buffer)); [apply lastLine_lastChunk|].
    set (chunk := lastChunk buffer) in *.
    destruct (decide (chunk !! 0%nat = Some LF /\ (1 < length chunk)%nat))
      as [[H0 Hlen] | Hno].
    + rewrite <- (drop_0 chunk) at 2. apply lastLine_from; auto.
    + apply lastLine_whole. intros j Hj.
      destruct j as [|j]; [|apply Hinner; lia].
      intros H0. apply Hno. split; [exact H0 | lia].
Qed.

(** ** A stream of progress events *)

Lemma updateChat_updateChat index a b (data : list Message.t) :
  Store.updateChat index a (Store.updateChat index b data)
  = Store.updateChat index a data.
Proof.
  unfold Store.updateChat. destruct (0 <=? index); [|reflexivity].
  apply list_insert_insert_eq.
Qed.

Lemma last_cons_match {A} (x : A) (l : list A) :
  last (x :: l) = match last l with Some y => Some y | None => Some x end.
Proof.
  destruct l as [|y l]; [reflexivity|]. rewrite last_cons_cons.
  destruct (last (y :: l)) eqn:E; [reflexivity|].
  apply last_None in E. discriminate.
Qed.

Lemma lastDecoded_cons JSON_parse (event : jsstring * jsstring) events :
  lastDecoded JSON_parse (event :: events)
  = match lastDecoded JSON_parse events with
    | Some x => Some x
    | None => pair event.1 <$> JSON_parse (lastChunk event.2)
    end.
Proof.
  unfold lastDecoded. cbn [omap list_omap].
  destruct (JSON_parse (lastChunk event.2)) as [data|]; simpl.
  - apply last_cons_match.
  - destruct (last _); reflexivity.
Qed.

Lemma noContinuation_cons openLongReply JSON_parse
    (event : jsstring * jsstring) events :
  noContinuation openLongReply JSON_parse (event :: events) ->
  (forall data, JSON_parse (lastChunk event.2) = Some data ->
                openLongReply && truncated data = false)
  /\ noContinuation openLongReply JSON_parse events.
Proof. intros H. inversion H; subst. split; assumption. Qed.

(** The part of the view a progress handler never touches. *)
Lemma onDownloadProgress_frame openLongReply JSON_parse index k now
    responseText s :
  let sent :=
    (onConversation_onDownloadProgress openLongReply JSON_parse k now
       responseText s).2 in
  let regenerated :=
    (onRegenerate_onDownloadProgress openLongReply JSON_parse index k now
       responseText s).2 in
  (loading sent = loading s /\ prompt sent = prompt s
   /\ usingContext sent = usingContext s /\ controller sent = controller s
   /\ aborted sent = aborted s
   /\ length (dataSources sent) = length (dataSources s))
  /\ (loading regenerated = loading s /\ prompt regenerated = prompt s
      /\ usingContext regenerated = usingContext s
      /\ controller regenerated = controller s
      /\ aborted regenerated = aborted s
      /\ length (dataSources regenerated) = length (dataSources s)).
Proof.
  cbv zeta.
  destruct (JSON_parse (lastChunk responseText)) as [data|] eqn:Hparse.
  - rewrite (onConversation_onDownloadProgress_decoded _ _ _ _ _ _ _ Hparse).
    rewrite (onRegenerate_onDownloadProgress_decoded _ _ _ _ _ _ _ _ Hparse).
    destruct (openLongReply && truncated data);
      [|destruct (openLongReply
                  && bool_decide (finish_reason_of data = None))];
      cbn [snd loading prompt usingContext controller aborted dataSources
           onConversation_fetchChatAPIOnce onRegenerate_fetchChatAPIOnce
           fetchChatAPIProcess scrollToBottomIfAtBottom updateChat emit
           set_pending set_dataSources];
      rewrite !length_updateChat; auto 12.
  - unfold onConversation_onDownloadProgress,
      onRegenerate_onDownloadProgress. rewrite Hparse. simpl. auto 12.
Qed.

(** A chunk that decodes and asks for no continuation: the closure
    variables, the requests and the requests in flight stay, the message
    at the streaming index is replaced. *)
Lemma onDownloadProgress_quiet openLongReply JSON_parse index k now
    responseText s data :
  JSON_parse (lastChunk responseText) = Some data ->
  openLongReply && truncated data = false ->
  let sent :=
    onConversation_onDownloadProgress openLongReply JSON_parse k now
      responseText s in
  let regenerated :=
    onRegenerate_onDownloadProgress openLongReply JSON_parse index k now
      responseText s in
  (sent.1 = k /\ pending sent.2 = pending s
   /\ requests sent.2 = requests s
   /\ dataSources sent.2
      = Store.updateChat (lastIndex s) (streamed k now data) (dataSources s))
  /\ (regenerated.1 = k /\ pending regenerated.2 = pending s
      /\ requests regenerated.2 = requests s
      /\ dataSources regenerated.2
         = Store.updateChat index (streamed k now data) (dataSources s)).
Proof.
  intros Hparse Hquiet. cbv zeta.
  rewrite (onConversation_onDownloadProgress_decoded _ _ _ _ _ _ _ Hparse).
  rewrite (onRegenerate_onDownloadProgress_decoded _ _ _ _ _ _ _ _ Hparse).
  rewrite Hquiet.
  destruct (openLongReply && bool_decide (finish_reason_of data = None));
    cbn [fst snd pending dataSources scrollToBottomIfAtBottom updateChat
         emit set_dataSources];
    unfold requests; cbn [trace scrollToBottomIfAtBottom updateChat emit
                          set_dataSources];
    rewrite ?omap_app; simpl; rewrite ?app_nil_r; auto 12.
Qed.

Lemma onConversation_progress_cons openLongReply JSON_parse k s
    (event : jsstring * jsstring) events :
  onConversation_progress openLongReply JSON_parse k s (event :: events)
  = onConversation_progress openLongReply JSON_parse
      (onConversation_onDownloadProgress openLongReply JSON_parse k event.1
         event.2 s).1
      (onConversation_onDownloadProgress openLongReply JSON_parse k event.1
         event.2 s).2
      events.
Proof.
  unfold onConversation_progress. simpl.
  destruct (onConversation_onDownloadProgress _ _ _ _ _ _); reflexivity.
Qed.

Lemma onRegenerate_progress_cons openLongReply JSON_parse index k s
    (event : jsstring * jsstring) events :
  onRegenerate_progress openLongReply JSON_parse index k s (event :: events)
  = onRegenerate_progress openLongReply JSON_parse index
      (onRegenerate_onDownloadProgress openLongReply JSON_parse index k
         event.1 event.2 s).1
      (onRegenerate_onDownloadProgress openLongReply JSON_parse index k
         event.1 event.2 s).2
      events.
Proof.
  unfold onRegenerate_progress. simpl.
  destruct (onRegenerate_onDownloadProgress _ _ _ _ _ _ _); reflexivity.
Qed.

(** What any stream leaves behind, for a send: the message at the last
    index is the last decoded chunk, written with the closure variables
    of its moment. *)
Lemma onConversation_progress_any openLongReply JSON_parse events :
  forall k s,
    let r := onConversation_progress openLongReply JSON_parse k s events in
    loading r.2 = loading s /\ prompt r.2 = prompt s
    /\ usingContext r.2 = usingContext s /\ controller r.2 = controller s
    /\ aborted r.2 = aborted s
    /\ length (dataSources r.2) = length (dataSources s)
    /\ exists k',
         dataSources r.2
         = match lastDecoded JSON_parse events with
           | Some (now, data) =>
               Store.updateChat (lastIndex s) (streamed k' now data)
                 (dataSources s)
           | None => dataSources s
           end.
Proof.
  induction events as [|[now buf] events IH]; intros k s.
  - cbv zeta. simpl. repeat (split; [reflexivity|]). exists k. reflexivity.
  - cbv zeta. rewrite onConversation_progress_cons, lastDecoded_cons.
    cbn [fst snd].
    destruct (onDownloadProgress_frame openLongReply JSON_parse 0 k now buf
                s) as [(Hl & Hpr & Hu & Hc & Ha & Hlen) _].
    pose proof (fun data =>
                  dataSources_onConversation_onDownloadProgress
                    openLongReply JSON_parse k now buf s data) as Hd.
    assert (Hnone : JSON_parse (lastChunk buf) = None ->
                    dataSources
                      (onConversation_onDownloadProgress openLongReply
                         JSON_parse k now buf s).2 = dataSources s).
    { intros Hparse. unfold onConversation_onDownloadProgress.
      rewrite Hparse. reflexivity. }
    destruct (onConversation_onDownloadProgress openLongReply JSON_parse k
                now buf s) as [k1 s1]. cbn [fst snd] in *.
    specialize (IH k1 s1). cbv zeta in IH.
    destruct IH as (IHl & IHpr & IHu & IHc & IHa & IHlen & k' & IHd).
    assert (Hidx : lastIndex s1 = lastIndex s)
      by (unfold lastIndex; rewrite Hlen; reflexivity).
    rewrite IHl, IHpr, IHu, IHc, IHa, IHlen, IHd, Hidx.
    repeat (split; [assumption|]).
    destruct (lastDecoded JSON_parse events) as [[now' data']|].
    + exists k'.
      destruct (JSON_parse (lastChunk buf)) as [data|] eqn:Hparse.
      * rewrite (Hd data eq_refl). apply updateChat_updateChat.
      * rewrite (Hnone eq_refl). reflexivity.
    + destruct (JSON_parse (lastChunk buf)) as [data|] eqn:Hparse.
      * exists k. simpl. apply Hd. reflexivity.
      * exists k. simpl. apply Hnone. reflexivity.
Qed.

(** What a whole stream without continuation leaves behind, for a send. *)
Lemma onConversation_progress_quiet openLongReply JSON_parse events :
  forall k s,
    noContinuation openLongReply JSON_parse events ->
    let r := onConversation_progress openLongReply JSON_parse k s events in
    r.1 = k
    /\ loading r.2 = loading s /\ prompt r.2 = prompt s
    /\ usingContext r.2 = usingContext s /\ controller r.2 = controller s
    /\ aborted r.2 = aborted s /\ pending r.2 = pending s
    /\ requests r.2 = requests s
    /\ dataSources r.2
       = match lastDecoded JSON_parse events with
         | Some (now, data) =>
             Store.updateChat (lastIndex s) (streamed k now data)
               (dataSources s)
         | None => dataSources s
         end.
Proof.
  induction events as [|[now buf] events IH]; intros k s Hquiet.
  - cbv zeta. simpl. auto 12.
  - apply noContinuation_cons in Hquiet as [Hhere Hrest].
    cbv zeta. rewrite onConversation_progress_cons, lastDecoded_cons.
    cbn [fst snd] in *.
    destruct (JSON_parse (lastChunk buf)) as [data|] eqn:Hparse.
    + destruct (onDownloadProgress_quiet openLongReply JSON_parse 0 k now
                  buf s data Hparse (Hhere data eq_refl))
        as [(Hk & Hp & Hr & Hd) _].
      destruct (onDownloadProgress_frame openLongReply JSON_parse 0 k now
                  buf s) as [(Hl & Hpr & Hu & Hc & Ha & Hlen) _].
      destruct (onConversation_onDownloadProgress openLongReply JSON_parse k
                  now buf s) as [k1 s1]. cbn [fst snd] in *. subst k1.
      specialize (IH k s1 Hrest). cbv zeta in IH.
      destruct IH as (IHk & IHl & IHpr & IHu & IHc & IHa & IHp & IHr & IHd).
      assert (Hidx : lastIndex s1 = lastIndex s)
        by (unfold lastIndex; rewrite Hlen; reflexivity).
      rewrite IHk, IHl, IHpr, IHu, IHc, IHa, IHp, IHr, IHd, Hidx, Hd.
      repeat split; try assumption.
      destruct (lastDecoded JSON_parse events) as [[now' data']|];
        [apply updateChat_updateChat | reflexivity].
    + assert (Hsame : onConversation_onDownloadProgress openLongReply
                        JSON_parse k now buf s = (k, s))
        by (unfold onConversation_onDownloadProgress; rewrite Hparse;
            reflexivity).
      rewrite Hsame. specialize (IH k s Hrest). cbv zeta in IH.
      destruct (lastDecoded JSON_parse events) as [[now' data']|];
        exact IH.
Qed.

(** The same for a regenerate. *)
Lemma onRegenerate_progress_quiet openLongReply JSON_parse index events :
  forall k s,
    noContinuation openLongReply JSON_parse events ->
    let r :=
      onRegenerate_progress openLongReply JSON_parse index k s events in
    r.1 = k
    /\ loading r.2 = loading s /\ prompt r.2 = prompt s
    /\ usingContext r.2 = usingContext s /\ controller r.2 = controller s
    /\ aborted r.2 = aborted s /\ pending r.2 = pending s
    /\ requests r.2 = requests s
    /\ dataSources r.2
       = match lastDecoded JSON_parse events with
         | Some (now, data) =>
             Store.updateChat index (streamed k now data) (dataSources s)
         | None => dataSources s
         end.
Proof.
  induction events as [|[now buf] events IH]; intros k s Hquiet.
  - cbv zeta. simpl. auto 12.
  - apply noContinuation_cons in Hquiet as [Hhere Hrest].
    cbv zeta. rewrite onRegenerate_progress_cons, lastDecoded_cons.
    cbn [fst snd] in *.
    destruct (JSON_parse (lastChunk buf)) as [data|] eqn:Hparse.
    + destruct (onDownloadProgress_quiet openLongReply JSON_parse index k
                  now buf s data Hparse (Hhere data eq_refl))
        as [_ (Hk & Hp & Hr & Hd)].
      destruct (onDownloadProgress_frame openLongReply JSON_parse index k
                  now buf s) as [_ (Hl & Hpr & Hu & Hc & Ha & Hlen)].
      destruct (onRegenerate_onDownloadProgress openLongReply JSON_parse
                  index k now buf s) as [k1 s1].
      cbn [fst snd] in *. subst k1.
      specialize (IH k s1 Hrest). cbv zeta in IH.
      destruct IH as (IHk & IHl & IHpr & IHu & IHc & IHa & IHp & IHr & IHd).
      rewrite IHk, IHl, IHpr, IHu, IHc, IHa, IHp, IHr, IHd, Hd.
      repeat split; try assumption.
      destruct (lastDecoded JSON_parse events) as [[now' data']|];
        [apply updateChat_updateChat | reflexivity].
    + assert (Hsame : onRegenerate_onDownloadProgress openLongReply
                        JSON_parse index k now buf s = (k, s))
        by (unfold onRegenerate_onDownloadProgress; rewrite Hparse;
            reflexivity).
      rewrite Hsame. specialize (IH k s Hrest). cbv zeta in IH.
      destruct (lastDecoded JSON_parse events) as [[now' data']|];
        exact IH.
Qed.

(** ** Whole runs of a send *)

Lemma updateChat_last (l : list Message.t) (x m : Message.t) :
  Store.updateChat (Z.of_nat (length l)) m (l ++ [x]) = l ++ [m].
Proof.
  unfold Store.updateChat.
  destruct (Z.leb_spec 0 (Z.of_nat (length l))); [|lia].
  rewrite Nat2Z.id, insert_app_r_alt, Nat.sub_diag by lia. reflexivity.
Qed.

Lemma updateChatSome_last (l : list Message.t) (x : Message.t)
    (p : Partial.t) :
  Store.updateChatSome (Z.of_nat (length l)) p (l ++ [x])
  = l ++ [Partial.spread x p].
Proof.
  unfold Store.updateChatSome, Store.getChatByUuidAndIndex, at_index.
  destruct (Z.leb_spec 0 (Z.of_nat (length l))); [|lia].
  rewrite Nat2Z.id, lookup_app_r, Nat.sub_diag by lia. simpl.
  apply updateChat_last.
Qed.

Lemma lastIndex_snoc (s : View) (l : list Message.t) (x : Message.t) :
  dataSources s = l ++ [x] -> lastIndex s = Z.of_nat (length l).
Proof.
  intros H. unfold lastIndex. rewrite H, length_app. simpl. lia.
Qed.

Lemma onConversation_fulfilled_fields (s : View) :
  let s' := onConversation_fulfilled s in
  dataSources s'
  = Store.updateChatSome (lastIndex s) Partial.loading_false (dataSources s)
  /\ loading s' = false /\ prompt s' = prompt s
  /\ usingContext s' = usingContext s /\ controller s' = controller s
  /\ aborted s' = aborted s /\ pending s' = Nat.pred (pending s)
  /\ requests s' = requests s.
Proof.
  destruct s as [d p l u c a n tr]. cbv zeta.
  unfold onConversation_fulfilled, onConversation_fetchChatAPIOnce_fulfilled,
    requests.
  cbn. rewrite omap_app. simpl. rewrite app_nil_r. auto 12.
Qed.

(** A fulfilled send without continuation, field by field. *)
Lemma onConversation_run_fulfilled :
  forall (openLongReply : bool)
         (JSON_parse : jsstring -> option ConversationResponse.t)
         (t : string -> jsstring) (now1 now2 : jsstring)
         (events : list (jsstring * jsstring)) (s : View),
    loading s = false ->
    ¬ blank (prompt s) ->
    noContinuation openLongReply JSON_parse events ->
    let opts :=
      contextOptions (usingContext s)
        (last (conversationList s) ≫= Message.conversationOptions) in
    let k := mkClosure (prompt s) opts (Some []) in
    let user :=
      Message.mk now1 (prompt s) true false None None
        (RequestOptions.mk (prompt s) None) in
    let placeholder :=
      Message.mk now2 thinking false false (Some true) None
        (requestOptionsOf (prompt s) opts) in
    let r :=
      onConversation_run openLongReply JSON_parse t now1 now2 events
        Fulfilled s in
    r.1 = Returned
    /\ dataSources r.2
       = dataSources s
         ++ [user; settled k placeholder (lastDecoded JSON_parse events)]
    /\ loading r.2 = false
    /\ prompt r.2 = []
    /\ pending r.2 = pending s
    /\ requests r.2
       = requests s ++ [Request.mk (prompt s) opts (length (aborted s))]
    /\ usingContext r.2 = usingContext s
    /\ controller r.2 = length (aborted s)
    /\ aborted r.2 = aborted s ++ [false].
Proof.
  intros olr parse t now1 now2 events s Hloading Hprompt Hquiet opts k user
    placeholder r.
  subst r. unfold onConversation_run.
  rewrite (onConversation_passes _ _ _ Hloading Hprompt). cbv zeta.
  fold opts. fold user. fold placeholder. fold k.
  set (s1 := mkView _ _ _ _ _ _ _ _).
  pose proof (onConversation_progress_quiet olr parse events k s1 Hquiet)
    as Hrun.
  cbv zeta in Hrun.
  destruct (onConversation_progress olr parse k s1 events) as [k2 s2].
  cbn [fst snd] in *.
  destruct Hrun as (_ & _ & Hpr & Hu & Hc & Ha & Hp & Hr & Hd).
  destruct (onConversation_fulfilled_fields s2)
    as (Fd & Fl & Fpr & Fu & Fc & Fa & Fp & Fr).
  rewrite Fd, Fl, Fpr, Fp, Fr, Fu, Fc, Fa, Hpr, Hp, Hr, Hu, Hc, Ha.
  assert (Hs1 : dataSources s1 = (dataSources s ++ [user]) ++ [placeholder])
    by (subst s1; cbn [dataSources]; rewrite <- app_assoc; reflexivity).
  assert (Hd2 : dataSources s2
                = (dataSources s ++ [user])
                  ++ [match lastDecoded parse events with
                      | Some (now, data) => streamed k now data
                      | None => placeholder
                      end]).
  { rewrite Hd. destruct (lastDecoded parse events) as [[now data]|].
    - rewrite (lastIndex_snoc _ _ _ Hs1), Hs1. apply updateChat_last.
    - exact Hs1. }
  rewrite (lastIndex_snoc _ _ _ Hd2), Hd2, updateChatSome_last.
  rewrite <- app_assoc.
  split; [reflexivity|]. split.
  { unfold settled.
    destruct (lastDecoded parse events) as [[now data]|]; reflexivity. }
  split; [reflexivity|]. split; [reflexivity|]. split; [reflexivity|].
  split; [subst s1; rewrite requests_app_trace; reflexivity|].
  subst s1. auto.
Qed.

(** X2: a send that passes its guards, whose stream asks for no
    continuation and whose request is fulfilled, ends with two messages
    more than before: the user's message and a reply that is not loading
    and shows the last buffer of the stream that decoded (the placeholder
    when none did; buffers that do not decode are skipped).  The view is
    no longer loading, the prompt is cleared, one request was issued and
    none is left in flight. *)
Theorem send_leaves_the_last_chunk :
  forall (openLongReply : bool)
         (JSON_parse : jsstring -> option ConversationResponse.t)
         (t : string -> jsstring) (now1 now2 : jsstring)
         (events : list (jsstring * jsstring)) (s : View),
    loading s = false ->
    ¬ blank (prompt s) ->
    noContinuation openLongReply JSON_parse events ->
    let opts :=
      contextOptions (usingContext s)
        (last (conversationList s) ≫= Message.conversationOptions) in
    let k := mkClosure (prompt s) opts (Some []) in
    let user :=
      Message.mk now1 (prompt s) true false None None
        (RequestOptions.mk (prompt s) None) in
    let placeholder :=
      Message.mk now2 thinking false false (Some true) None
        (requestOptionsOf (prompt s) opts) in
    let r :=
      onConversation_run openLongReply JSON_parse t now1 now2 events
        Fulfilled s in
    r.1 = Returned
    /\ dataSources r.2
       = dataSources s
         ++ [user; settled k placeholder (lastDecoded JSON_parse events)]
    /\ loading r.2 = false
    /\ prompt r.2 = []
    /\ pending r.2 = pending s
    /\ requests r.2
       = requests s ++ [Request.mk (prompt s) opts (length (aborted s))].
Proof.
  intros olr parse t now1 now2 events s Hloading Hprompt Hquiet.
  destruct (onConversation_run_fulfilled olr parse t now1 now2 events s
              Hloading Hprompt Hquiet) as (H1 & H2 & H3 & H4 & H5 & H6 & _).
  cbv zeta. auto 10.
Qed.

(** X3: with the context toggle on, the send that follows a fulfilled one
    continues it, whatever the stream was (with or without a long-reply
    continuation): its request carries the [conversationId] and the [id]
    of the last chunk the earlier stream decoded, as [conversationId] and
    [parentMessageId]. *)
Theorem next_send_continues_the_reply :
  forall (openLongReply : bool)
         (JSON_parse : jsstring -> option ConversationResponse.t)
         (t : string -> jsstring) (now1 now2 now3 now4 now : jsstring)
         (events : list (jsstring * jsstring)) (s : View)
         (data : ConversationResponse.t) (next : jsstring),
    loading s = false ->
    ¬ blank (prompt s) ->
    lastDecoded JSON_parse events = Some (now, data) ->
    usingContext s = true ->
    ¬ blank next ->
    let first :=
      onConversation_run openLongReply JSON_parse t now1 now2 events
        Fulfilled s in
    let second := onConversation now3 now4 (set_prompt next first.2) in
    requests second.2
    = requests first.2
      ++ [Request.mk next
            (ConversationRequest.mk
               (ConversationResponse.conversationId data)
               (ConversationResponse.id data))
            (controller second.2)].
Proof.
  intros olr parse t now1 now2 now3 now4 now events s data next Hloading
    Hprompt Hlast Hcontext Hnext first second.
  assert (Hfirst : loading first.2 = false
                   /\ usingContext first.2 = true
                   /\ exists before k',
                        dataSources first.2
                        = before ++ [notLoading (streamed k' now data)]).
  { subst first. unfold onConversation_run.
    rewrite (onConversation_passes _ _ _ Hloading Hprompt). cbv zeta.
    set (user := Message.mk now1 _ _ _ _ _ _).
    set (placeholder := Message.mk now2 _ _ _ _ _ _).
    set (k := mkClosure _ _ _).
    set (s1 := mkView _ _ _ _ _ _ _ _).
    pose proof (onConversation_progress_any olr parse events k s1) as Hrun.
    cbv zeta in Hrun.
    destruct (onConversation_progress olr parse k s1 events) as [k2 s2].
    cbn [fst snd] in *.
    destruct Hrun as (_ & _ & Hu & _ & _ & _ & k' & Hd).
    rewrite Hlast in Hd.
    destruct (onConversation_fulfilled_fields s2)
      as (Fd & Fl & _ & Fu & _).
    rewrite Fd, Fl, Fu, Hu. split; [reflexivity|].
    split; [subst s1; exact Hcontext|].
    exists (dataSources s ++ [user]), k'.
    assert (Hs1 : dataSources s1
                  = (dataSources s ++ [user]) ++ [placeholder])
      by (subst s1; cbn [dataSources]; rewrite <- app_assoc; reflexivity).
    assert (Hd2 : dataSources s2
                  = (dataSources s ++ [user]) ++ [streamed k' now data]).
    { rewrite Hd, (lastIndex_snoc _ _ _ Hs1), Hs1. apply updateChat_last. }
    rewrite (lastIndex_snoc _ _ _ Hd2), Hd2, updateChatSome_last.
    reflexivity. }
  destruct Hfirst as (Hl & Hu & before & k' & Hd).
  subst second.
  rewrite (onConversation_passes now3 now4 (set_prompt next first.2));
    [|exact Hl|exact Hnext].
  cbv zeta. cbn [snd controller]. rewrite requests_app_trace.
  cbn [omap list_omap prompt set_prompt usingContext].
  change (requests (set_prompt next first.2)) with (requests first.2).
  rewrite Hu.
  rewrite (lastContext_mostRecentContext (set_prompt next first.2)
             (Some (ConversationRequest.mk
                      (ConversationResponse.conversationId data)
                      (ConversationResponse.id data)))).
  - reflexivity.
  - cbn [dataSources set_prompt]. rewrite Hd.
    eapply (mostRecentContext_found _ before _ []).
    + reflexivity.
    + reflexivity.
    + reflexivity.
    + constructor.
Qed.

Lemma onConversation_rejected_last (t : string -> jsstring) (k : Closure)
    (now : jsstring) (error : Error.t) (s : View) (l : list Message.t)
    (chat : Message.t) :
  Error.message error ≠ Some (lit "canceled") ->
  dataSources s = l ++ [chat] ->
  let errorMessage := default (t "common.wrong") (Error.message error) in
  let s' := onConversation_rejected t k now error s in
  dataSources s'
  = l ++ [if bool_decide (Message.text chat ≠ [])
          then Message.mk (Message.dateTime chat)
                 (Message.text chat ++ [LF] ++ lit "[" ++ errorMessage
                    ++ lit "]")
                 (Message.inversion chat) false (Some false)
                 (Message.conversationOptions chat)
                 (Message.requestOptions chat)
          else Message.mk now errorMessage false true (Some false) None
                 (requestOptionsOf (message k) (options k))]
  /\ loading s' = false /\ prompt s' = prompt s
  /\ pending s' = Nat.pred (pending s)
  /\ requests s' = requests s.
Proof.
  intros Hmsg Hdata errorMessage s'.
  apply strictEqU_false in Hmsg.
  destruct s as [d p lo u c a n tr]. cbn [dataSources] in Hdata. subst d.
  subst s'. unfold onConversation_rejected. rewrite Hmsg.
  unfold getChatByUuidAndIndex, Store.getChatByUuidAndIndex, settle,
    set_pending.
  cbn [dataSources prompt loading usingContext controller aborted pending
       trace].
  assert (Hidx : forall p' lo' u' c' a' n' tr',
             lastIndex (mkView (l ++ [chat]) p' lo' u' c' a' n' tr')
             = Z.of_nat (length l)).
  { intros. eapply lastIndex_snoc. reflexivity. }
  rewrite !Hidx.
  assert (Hat : at_index (l ++ [chat]) (Z.of_nat (length l)) = Some chat).
  { unfold at_index. destruct (Z.leb_spec 0 (Z.of_nat (length l))); [|lia].
    rewrite Nat2Z.id, lookup_app_r, Nat.sub_diag by lia. reflexivity. }
  rewrite Hat. fold errorMessage.
  assert (Htest : truthy (Message.text chat)
                  && negb (strictEq (Message.text chat) [])
                  = bool_decide (Message.text chat ≠ [])).
  { unfold strictEq. destruct (Message.text chat); reflexivity. }
  rewrite Htest. unfold requests.
  case_bool_decide as Htext;
    cbn [updateChatSome updateChat scrollToBottomIfAtBottom set_loading emit
         set_dataSources dataSources prompt loading usingContext controller
         aborted pending trace];
    rewrite ?Hidx, ?updateChatSome_last, ?updateChat_last, ?omap_app;
    simpl; rewrite ?app_nil_r; auto 10.
Qed.

(** X4: a send whose request fails with an error other than a
    cancellation, after a stream without continuation, ends with the
    user's message and a reply that is not loading.  When the reply has
    text (the last decoded chunk's, or the placeholder '思考中' when no
    chunk decoded), the error message is added below it in brackets and
    the error flag stays off; only a reply whose text a chunk has emptied
    becomes an error entry.  The view stops loading and no request is left
    in flight. *)
Theorem failed_send_shows_the_error :
  forall (openLongReply : bool)
         (JSON_parse : jsstring -> option ConversationResponse.t)
         (t : string -> jsstring) (now1 now2 now : jsstring)
         (events : list (jsstring * jsstring)) (error : Error.t) (s : View),
    loading s = false ->
    ¬ blank (prompt s) ->
    noContinuation openLongReply JSON_parse events ->
    Error.message error ≠ Some (lit "canceled") ->
    let opts :=
      contextOptions (usingContext s)
        (last (conversationList s) ≫= Message.conversationOptions) in
    let k := mkClosure (prompt s) opts (Some []) in
    let user :=
      Message.mk now1 (prompt s) true false None None
        (RequestOptions.mk (prompt s) None) in
    let reply :=
      match lastDecoded JSON_parse events with
      | Some (now', data) => streamed k now' data
      | None =>
          Message.mk now2 thinking false false (Some true) None
            (requestOptionsOf (prompt s) opts)
      end in
    let errorMessage := default (t "common.wrong") (Error.message error) in
    let r :=
      onConversation_run openLongReply JSON_parse t now1 now2 events
        (Rejected now error) s in
    dataSources r.2
    = dataSources s
      ++ [user;
          if bool_decide (Message.text reply ≠ [])
          then Message.mk (Message.dateTime reply)
                 (Message.text reply ++ [LF] ++ lit "[" ++ errorMessage
                    ++ lit "]")
                 false false (Some false)
                 (Message.conversationOptions reply)
                 (requestOptionsOf (prompt s) opts)
          else Message.mk now errorMessage false true (Some false) None
                 (requestOptionsOf (prompt s) opts)]
    /\ loading r.2 = false
    /\ pending r.2 = pending s
    /\ requests r.2
       = requests s ++ [Request.mk (prompt s) opts (length (aborted s))].
Proof.
  intros olr parse t now1 now2 now events error s Hloading Hprompt Hquiet
    Hmsg opts k user reply errorMessage r.
  subst r. unfold onConversation_run.
  rewrite (onConversation_passes _ _ _ Hloading Hprompt). cbv zeta.
  fold opts. fold user. fold k.
  set (placeholder := Message.mk now2 thinking false false (Some true) None
                        (requestOptionsOf (prompt s) opts)) in *.
  set (s1 := mkView _ _ _ _ _ _ _ _).
  pose proof (onConversation_progress_quiet olr parse events k s1 Hquiet)
    as Hrun.
  cbv zeta in Hrun.
  destruct (onConversation_progress olr parse k s1 events) as [k2 s2].
  cbn [fst snd] in *.
  destruct Hrun as (-> & _ & _ & _ & _ & _ & Hp & Hr & Hd).
  assert (Hs1 : dataSources s1 = (dataSources s ++ [user]) ++ [placeholder])
    by (subst s1; cbn [dataSources]; rewrite <- app_assoc; reflexivity).
  assert (Hd2 : dataSources s2 = (dataSources s ++ [user]) ++ [reply]).
  { rewrite Hd. subst reply.
    destruct (lastDecoded parse events) as [[now' data]|].
    - rewrite (lastIndex_snoc _ _ _ Hs1), Hs1. apply updateChat_last.
    - exact Hs1. }
  destruct (onConversation_rejected_last t k now error s2 _ _ Hmsg Hd2)
    as (Fd & Fl & _ & Fp & Fr).
  rewrite Fd, Fl, Fp, Fr, Hp, Hr, <- app_assoc.
  fold errorMessage.
  assert (Hflags : Message.inversion reply = false
                   /\ Message.requestOptions reply
                      = requestOptionsOf (prompt s) opts).
  { subst reply. destruct (lastDecoded parse events) as [[now' data]|];
      split; reflexivity. }
  destruct Hflags as [-> ->].
  split; [reflexivity|]. split; [reflexivity|]. split; [reflexivity|].
  subst s1. rewrite requests_app_trace. reflexivity.
Qed.

(** ** Whole runs of a regenerate *)

Lemma updateChat_insert index m (data : list Message.t) :
  0 <= index ->
  Store.updateChat index m data = <[Z.to_nat index := m]> data.
Proof.
  intros H. unfold Store.updateChat.
  destruct (Z.leb_spec 0 index); [reflexivity | lia].
Qed.

Lemma updateChatSome_updateChat index p m (data : list Message.t) :
  is_Some (at_index data index) ->
  Store.updateChatSome index p (Store.updateChat index m data)
  = Store.updateChat index (Partial.spread m p) data.
Proof.
  intros Hidx. unfold Store.updateChatSome, Store.getChatByUuidAndIndex.
  rewrite at_index_updateChat_eq by exact Hidx.
  apply updateChat_updateChat.
Qed.

Lemma onRegenerate_fulfilled_fields (index : Z) (s : View) :
  let s' := onRegenerate_fulfilled index s in
  dataSources s'
  = Store.updateChatSome index Partial.loading_false (dataSources s)
  /\ loading s' = false /\ prompt s' = prompt s
  /\ usingContext s' = usingContext s /\ controller s' = controller s
  /\ aborted s' = aborted s /\ pending s' = Nat.pred (pending s)
  /\ requests s' = requests s.
Proof.
  destruct s as [d p l u c a n tr]. cbv zeta.
  unfold onRegenerate_fulfilled, onRegenerate_fetchChatAPIOnce_fulfilled,
    requests.
  cbn. rewrite omap_app. simpl. rewrite app_nil_r. auto 12.
Qed.

(** X5: a regenerate of a message of the transcript, whose stream asks for
    no continuation and whose request is fulfilled, replaces that message
    and no other: by the last buffer of the stream that decoded, or by an
    empty reply when none did, not loading.  The request is the one stored
    with the message (its prompt, its options or none), the prompt being
    typed is kept, the view stops loading, no request is left in flight. *)
Theorem regenerate_replaces_one_message :
  forall (openLongReply : bool)
         (JSON_parse : jsstring -> option ConversationResponse.t)
         (t : string -> jsstring) (index : Z) (now0 : jsstring)
         (events : list (jsstring * jsstring)) (s : View) (item : Message.t),
    loading s = false ->
    at_index (dataSources s) index = Some item ->
    noContinuation openLongReply JSON_parse events ->
    let msg := RequestOptions.prompt (Message.requestOptions item) in
    let opts :=
      default ConversationRequest.empty
        (RequestOptions.options (Message.requestOptions item)) in
    let k := mkClosure msg opts (Some []) in
    let emptied :=
      Message.mk now0 [] false false (Some true) None
        (requestOptionsOf msg opts) in
    let r :=
      onRegenerate_run openLongReply JSON_parse t index now0 events
        Fulfilled s in
    r.1 = Returned
    /\ dataSources r.2
       = <[Z.to_nat index :=
             settled k emptied (lastDecoded JSON_parse events)]>
           (dataSources s)
    /\ loading r.2 = false
    /\ prompt r.2 = prompt s
    /\ pending r.2 = pending s
    /\ requests r.2
       = requests s ++ [Request.mk msg opts (length (aborted s))].
Proof.
  intros olr parse t index now0 events s item Hloading Hitem Hquiet msg opts
    k emptied r.
  assert (H0 : 0 <= index) by (apply at_index_Some in Hitem; tauto).
  subst r. unfold onRegenerate_run.
  rewrite (onRegenerate_passes _ _ _ _ Hloading Hitem). cbv zeta.
  fold msg. fold opts. fold emptied. fold k.
  set (s1 := mkView _ _ _ _ _ _ _ _).
  pose proof (onRegenerate_progress_quiet olr parse index events k s1 Hquiet)
    as Hrun.
  cbv zeta in Hrun.
  destruct (onRegenerate_progress olr parse index k s1 events) as [k2 s2].
  cbn [fst snd] in *.
  destruct Hrun as (_ & _ & Hpr & _ & _ & _ & Hp & Hr & Hd).
  destruct (onRegenerate_fulfilled_fields index s2)
    as (Fd & Fl & Fpr & _ & _ & _ & Fp & Fr).
  rewrite Fd, Fl, Fpr, Fp, Fr, Hpr, Hp, Hr.
  assert (Hd2 : dataSources s2
                = Store.updateChat index
                    match lastDecoded parse events with
                    | Some (now, data) => streamed k now data
                    | None => emptied
                    end (dataSources s)).
  { rewrite Hd. subst s1. cbn [dataSources].
    destruct (lastDecoded parse events) as [[now data]|];
      [apply updateChat_updateChat | reflexivity]. }
  rewrite Hd2, updateChatSome_updateChat by eauto.
  rewrite updateChat_insert by exact H0.
  split; [reflexivity|]. split.
  { unfold settled.
    destruct (lastDecoded parse events) as [[now data]|]; reflexivity. }
  split; [reflexivity|]. split; [reflexivity|]. split; [reflexivity|].
  subst s1. rewrite requests_app_trace. reflexivity.
Qed.

(** X6: regenerating the reply of a fulfilled send (without continuation)
    issues the request of that send again: the same prompt and the same
    options, under a new controller. *)
Theorem regenerate_resends_the_request :
  forall (openLongReply : bool)
         (JSON_parse : jsstring -> option ConversationResponse.t)
         (t : string -> jsstring) (now1 now2 now3 : jsstring)
         (events : list (jsstring * jsstring)) (s : View),
    loading s = false ->
    ¬ blank (prompt s) ->
    noContinuation openLongReply JSON_parse events ->
    let first :=
      onConversation_run openLongReply JSON_parse t now1 now2 events
        Fulfilled s in
    let again := onRegenerate (lastIndex first.2) now3 first.2 in
    exists (opts : ConversationRequest.t) (k : Closure),
      again.1 = Awaiting k
      /\ requests again.2
         = requests s
           ++ [Request.mk (prompt s) opts (length (aborted s));
               Request.mk (prompt s) opts (S (length (aborted s)))].
Proof.
  intros olr parse t now1 now2 now3 events s Hloading Hprompt Hquiet first
    again.
  destruct (onConversation_run_fulfilled olr parse t now1 now2 events s
              Hloading Hprompt Hquiet)
    as (_ & Hd & Hl & _ & _ & Hr & _ & _ & Ha).
  cbv zeta in Hd, Hr. fold first in Hd, Hl, Hr, Ha.
  set (opts := contextOptions (usingContext s)
                 (last (conversationList s) ≫= Message.conversationOptions))
    in *.
  set (reply := settled _ _ _) in Hd.
  assert (Hreply : Message.requestOptions reply
                   = requestOptionsOf (prompt s) opts).
  { subst reply. unfold settled.
    destruct (lastDecoded parse events) as [[now data]|]; reflexivity. }
  assert (Hat : at_index (dataSources first.2) (lastIndex first.2)
                = Some reply).
  { rewrite at_index_lastIndex, Hd.
    change (dataSources s ++ [?a; ?b]) with (dataSources s ++ [a] ++ [b]).
    rewrite app_assoc. apply last_snoc. }
  exists opts. subst again.
  rewrite (onRegenerate_passes _ _ _ _ Hl Hat). cbv zeta.
  rewrite Hreply. cbn [fst snd RequestOptions.prompt RequestOptions.options
                       requestOptionsOf default].
  eexists. split; [reflexivity|].
  rewrite requests_app_trace, Hr, Ha, length_app, <- app_assoc. simpl.
  rewrite Nat.add_1_r. reflexivity.
Qed.


(** ** Stopping, clearing, and the keys *)

(** X8: after a send is stopped, a new prompt can be sent at once, and the
    new request is not born aborted: the stopped controller is marked
    aborted, the new request runs under the next controller, which is
    not. *)
Theorem stop_then_send_again :
  forall (now1 now2 now3 now4 next : jsstring) (s : View),
    loading s = false ->
    ¬ blank (prompt s) ->
    ¬ blank next ->
    let stopped := handleStop (onConversation now1 now2 s).2 in
    let second := onConversation now3 now4 (set_prompt next stopped) in
    let fresh := S (length (aborted s)) in
    loading stopped = false
    /\ (exists k, second.1 = Awaiting k)
    /\ controller second.2 = fresh
    /\ aborted second.2 = aborted s ++ [true; false]
    /\ aborted second.2 !! fresh = Some false
    /\ (exists opts,
          last (requests second.2) = Some (Request.mk next opts fresh)).
Proof.
  intros now1 now2 now3 now4 next s Hloading Hprompt Hnext stopped second
    fresh.
  assert (Hstopped : loading stopped = false
                     /\ aborted stopped = aborted s ++ [true]
                     /\ prompt (set_prompt next stopped) = next).
  { subst stopped. rewrite (onConversation_passes _ _ _ Hloading Hprompt).
    cbv zeta. unfold handleStop, abort.
    cbn [snd loading aborted controller emit set_loading set_prompt prompt].
    rewrite insert_app_r_alt, Nat.sub_diag by lia. auto. }
  destruct Hstopped as (Hl & Ha & Hp).
  split; [exact Hl|].
  subst second.
  rewrite (onConversation_passes now3 now4 (set_prompt next stopped));
    [|exact Hl|exact Hnext].
  cbv zeta. cbn [fst snd controller aborted].
  change (aborted (set_prompt next stopped)) with (aborted stopped).
  rewrite Ha, length_app, Nat.add_1_r, <- app_assoc. simpl app.
  split; [eauto|]. split; [reflexivity|]. split; [reflexivity|]. split.
  - subst fresh. rewrite lookup_app_r by lia.
    replace (S (length (aborted s)) - length (aborted s))%nat with 1%nat
      by lia.
    reflexivity.
  - eexists. rewrite requests_app_trace. simpl omap.
    change (prompt (set_prompt next stopped)) with next.
    apply last_snoc.
Qed.

(** X9: [handleClear] on a view that is not loading only opens its dialog;
    once the dialog is confirmed the transcript is empty, and the next send
    starts a conversation of its own: the transcript holds its two
    messages and its request carries no options, whatever the context
    toggle. *)
Theorem clear_then_send_starts_afresh :
  forall (now1 now2 next : jsstring) (s : View),
    loading s = false ->
    ¬ blank next ->
    let asked := handleClear s in
    let cleared := handleClear_onPositiveClick asked in
    let sent := onConversation now1 now2 (set_prompt next cleared) in
    dataSources asked = dataSources s
    /\ trace asked = trace s ++ [DialogWarning ClearChat]
    /\ dataSources cleared = []
    /\ dataSources sent.2
       = [ Message.mk now1 next true false None None
             (RequestOptions.mk next None);
           Message.mk now2 thinking false false (Some true) None
             (RequestOptions.mk next (Some ConversationRequest.empty)) ]
    /\ requests sent.2
       = requests s
         ++ [Request.mk next ConversationRequest.empty (controller sent.2)].
Proof.
  intros now1 now2 next s Hloading Hnext asked cleared sent.
  assert (Hasked : asked = dialog_warning ClearChat s)
    by (subst asked; unfold handleClear; rewrite Hloading; reflexivity).
  split; [rewrite Hasked; reflexivity|].
  split; [rewrite Hasked; reflexivity|].
  split; [reflexivity|].
  subst sent.
  rewrite (onConversation_passes now1 now2 (set_prompt next cleared));
    [|subst cleared; rewrite Hasked; exact Hloading|exact Hnext].
  cbv zeta. cbn [snd dataSources controller prompt set_prompt].
  split; [reflexivity|].
  rewrite requests_app_trace. subst cleared. rewrite Hasked.
  unfold requests at 1.
  cbn [trace set_prompt handleClear_onPositiveClick clearChatByUuid emit
       set_dataSources dialog_warning].
  rewrite !omap_app. simpl. rewrite !app_nil_r. reflexivity.
Qed.




(** ** The long reply *)

(** X12: with the long-reply feature on, a chunk cut for length followed by
    a chunk of the continuation: the message at the streaming index shows
    the text of the cut chunk followed by the text of the later one, and
    the request stored with it is the continuation's, whose prompt is
    empty and whose [parentMessageId] is the [id] of the cut chunk (so
    this is what a later regenerate of the message sends). *)
Theorem continuation_appends_to_the_cut_text :
  forall (JSON_parse : jsstring -> option ConversationResponse.t)
         (index : Z) (k : Closure) (now1 now2 buffer1 buffer2 : jsstring)
         (s : View) (data1 data2 : ConversationResponse.t),
    JSON_parse (lastChunk buffer1) = Some data1 ->
    truncated data1 = true ->
    JSON_parse (lastChunk buffer2) = Some data2 ->
    dataSources s ≠ [] ->
    is_Some (at_index (dataSources s) index) ->
    let resumption :=
      ConversationRequest.mk
        (ConversationRequest.conversationId (options k))
        (ConversationResponse.id data1) in
    let shown :=
      Message.mk now2
        (ToString (ConversationResponse.text data1)
           ++ default [] (ConversationResponse.text data2))
        false false (Some true)
        (Some (ConversationRequest.mk
                 (ConversationResponse.conversationId data2)
                 (ConversationResponse.id data2)))
        (RequestOptions.mk [] (Some resumption)) in
    let sent1 :=
      onConversation_onDownloadProgress true JSON_parse k now1 buffer1 s in
    let sent2 :=
      onConversation_onDownloadProgress true JSON_parse sent1.1 now2 buffer2
        sent1.2 in
    let regenerated1 :=
      onRegenerate_onDownloadProgress true JSON_parse index k now1 buffer1
        s in
    let regenerated2 :=
      onRegenerate_onDownloadProgress true JSON_parse index regenerated1.1
        now2 buffer2 regenerated1.2 in
    at_index (dataSources sent2.2) (lastIndex s) = Some shown
    /\ at_index (dataSources regenerated2.2) index = Some shown
    /\ requests sent1.2 = requests s ++ [Request.mk [] resumption (controller s)]
    /\ requests regenerated1.2
       = requests s ++ [Request.mk [] resumption (controller s)].
Proof.
  intros parse index k now1 now2 buf1 buf2 s data1 data2 Hparse1 Htrunc
    Hparse2 Hne Hidx resumption shown sent1 sent2 regenerated1 regenerated2.
  pose proof (is_Some_at_index_lastIndex s Hne) as Hlast.
  assert (Hsent1 : sent1
                   = (resumed k data1,
                      onConversation_fetchChatAPIOnce (resumed k data1)
                        (updateChat (lastIndex s) (streamed k now1 data1) s))).
  { subst sent1.
    rewrite (onConversation_onDownloadProgress_decoded _ _ _ _ _ _ _ Hparse1).
    rewrite Htrunc. reflexivity. }
  assert (Hregen1 : regenerated1
                    = (resumed k data1,
                       onRegenerate_fetchChatAPIOnce (resumed k data1)
                         (updateChat index (streamed k now1 data1) s))).
  { subst regenerated1.
    rewrite (onRegenerate_onDownloadProgress_decoded _ _ _ _ _ _ _ _ Hparse1).
    rewrite Htrunc. reflexivity. }
  split; [|split; [|split]].
  - subst sent2.
    rewrite (dataSources_onConversation_onDownloadProgress _ _ _ _ _ _ _
               Hparse2).
    rewrite Hsent1. cbn [fst snd].
    assert (Hi : lastIndex
                   (onConversation_fetchChatAPIOnce (resumed k data1)
                      (updateChat (lastIndex s) (streamed k now1 data1) s))
                 = lastIndex s).
    { unfold lastIndex. cbn [dataSources onConversation_fetchChatAPIOnce
                             fetchChatAPIProcess emit set_pending updateChat
                             set_dataSources].
      rewrite length_updateChat. reflexivity. }
    rewrite Hi. rewrite at_index_updateChat_eq; [reflexivity|].
    cbn [dataSources onConversation_fetchChatAPIOnce fetchChatAPIProcess
         emit set_pending updateChat set_dataSources].
    rewrite at_index_updateChat_eq by exact Hlast. eauto.
  - subst regenerated2.
    rewrite (dataSources_onRegenerate_onDownloadProgress _ _ _ _ _ _ _ _
               Hparse2).
    rewrite Hregen1. cbn [fst snd].
    rewrite at_index_updateChat_eq; [reflexivity|].
    cbn [dataSources onRegenerate_fetchChatAPIOnce fetchChatAPIProcess
         emit set_pending updateChat set_dataSources].
    rewrite at_index_updateChat_eq by exact Hidx. eauto.
  - rewrite Hsent1. unfold requests.
    cbn [snd trace onConversation_fetchChatAPIOnce fetchChatAPIProcess emit
         set_pending updateChat set_dataSources controller].
    rewrite !omap_app. simpl. rewrite app_nil_r. reflexivity.
  - rewrite Hregen1. unfold requests.
    cbn [snd trace onRegenerate_fetchChatAPIOnce fetchChatAPIProcess emit
         set_pending updateChat set_dataSources controller].
    rewrite !omap_app. simpl. rewrite app_nil_r. reflexivity.
Qed.

(** X13: a progress handler never changes the loading flag of the view,
    the prompt being typed, the context toggle, the controller or the
    abort flags, and it never adds or removes a message. *)
Theorem progress_handlers_keep_the_view :
  forall (openLongReply : bool)
         (JSON_parse : jsstring -> option ConversationResponse.t)
         (index : Z) (k : Closure) (now responseText : jsstring) (s : View),
    let sent :=
      (onConversation_onDownloadProgress openLongReply JSON_parse k now
         responseText s).2 in
    let regenerated :=
      (onRegenerate_onDownloadProgress openLongReply JSON_parse index k now
         responseText s).2 in
    (loading sent = loading s /\ prompt sent = prompt s
     /\ usingContext sent = usingContext s /\ controller sent = controller s
     /\ aborted sent = aborted s
     /\ length (dataSources sent) = length (dataSources s))
    /\ (loading regenerated = loading s /\ prompt regenerated = prompt s
        /\ usingContext regenerated = usingContext s
        /\ controller regenerated = controller s
        /\ aborted regenerated = aborted s
        /\ length (dataSources regenerated) = length (dataSources s)).
Proof. exact onDownloadProgress_frame. Qed.

(** ** The prompt templates *)

Lemma includes_spec (S x : jsstring) :
  includes S x = true <-> exists a b, S = a ++ x ++ b.
Proof.
  induction S as [|c S IH]; simpl.
  - rewrite orb_false_r, bool_decide_eq_true. split.
    + intros [b Hb]. exists [], b. exact Hb.
    + intros (a & b & H). symmetry in H.
      apply app_eq_nil in H as [-> H]. apply app_eq_nil in H as [-> ->].
      exists []. reflexivity.
  - rewrite orb_true_iff, bool_decide_eq_true, IH. split.
    + intros [[b Hb] | (a & b & H)].
      * exists [], b. exact Hb.
      * exists (c :: a), b. rewrite H. reflexivity.
    + intros ([|c' a] & b & H).
      * left. exists b. exact H.
      * right. exists a, b. simpl in H. congruence.
Qed.

Lemma substring_1 (rest : jsstring) (c : N) : substring (c :: rest) 1 = rest.
Proof.
  unfold substring, clamp. simpl length.
  replace (Z.to_nat (Z.min (Z.max 1 0) (Z.of_nat (S (length rest)))))
    with 1%nat by lia.
  reflexivity.
Qed.

Lemma startsWith_slash (S : jsstring) :
  startsWith S (lit "/") = true <-> exists rest, S = lit "/" ++ rest.
Proof.
  unfold startsWith. rewrite bool_decide_eq_true. reflexivity.
Qed.

(** X14: the auto-complete offers something only for a prompt that starts
    with a slash, and then exactly the templates whose key contains, case
    apart, what follows the slash; an option shows the template's value as
    its label and as its value. *)
Theorem searchOptions_offers_matching_templates :
  forall (toLowerCase : jsstring -> jsstring)
         (promptTemplate : list PromptTemplate.t) (s : View)
         (option : SelectOption.t),
    option ∈ searchOptions toLowerCase promptTemplate s
    <-> exists rest item,
          prompt s = lit "/" ++ rest
          /\ item ∈ promptTemplate
          /\ option = SelectOption.mk (PromptTemplate.value item)
                        (PromptTemplate.value item)
          /\ exists a b,
               toLowerCase (PromptTemplate.key item)
               = a ++ toLowerCase rest ++ b.
Proof.
  intros toLowerCase templates s option. unfold searchOptions.
  destruct (startsWith (prompt s) (lit "/")) eqn:Hslash.
  - apply startsWith_slash in Hslash as [rest Hrest].
    rewrite Hrest. simpl app. rewrite substring_1.
    rewrite list_elem_of_fmap. split.
    + intros (item & -> & Hitem).
      apply list_elem_of_filter in Hitem as [Hmatch Hin].
      apply includes_spec in Hmatch.
      exists rest, item. auto.
    + intros (rest' & item & Heq & Hin & -> & Hmatch).
      simpl in Heq. inversion Heq; subst rest'.
      exists item. split; [reflexivity|].
      apply list_elem_of_filter. split; [|exact Hin].
      apply includes_spec. exact Hmatch.
  - split.
    + intros H. inversion H.
    + intros (rest & item & Heq & _).
      assert (startsWith (prompt s) (lit "/") = true)
        by (apply startsWith_slash; eauto).
      congruence.
Qed.

(** X15: a slash alone offers every template, in the order of the list
    (the empty string is found in every key). *)
Theorem searchOptions_slash_offers_everything :
  forall (toLowerCase : jsstring -> jsstring)
         (promptTemplate : list PromptTemplate.t) (s : View),
    toLowerCase [] = [] ->
    prompt s = lit "/" ->
    searchOptions toLowerCase promptTemplate s
    = map (fun item => SelectOption.mk (PromptTemplate.value item)
                         (PromptTemplate.value item))
        promptTemplate.
Proof.
  intros toLowerCase templates s Hlower Hprompt.
  unfold searchOptions. rewrite Hprompt.
  change (startsWith (lit "/") (lit "/")) with true. cbv iota.
  change (substring (lit "/") 1) with (@nil N). rewrite Hlower.
  f_equal. induction templates as [|item templates IH]; [reflexivity|].
  rewrite filter_cons_True.
  - f_equal. exact IH.
  - apply includes_spec. exists [], (toLowerCase (PromptTemplate.key item)).
    reflexivity.
Qed.

Lemma renderOption_from_first (rest : list PromptTemplate.t)
    (item : PromptTemplate.t) (option : SelectOption.t) :
  NoDup (PromptTemplate.value <$> rest) ->
  item ∈ rest ->
  PromptTemplate.value item = SelectOption.label option ->
  renderOption_from rest option = [PromptTemplate.key item].
Proof.
  induction rest as [|i rest IH]; intros Hnodup Hin Hvalue.
  - inversion Hin.
  - simpl. unfold strictEq. case_bool_decide as Hi.
    + apply elem_of_cons in Hin as [-> | Hin]; [reflexivity|].
      exfalso. simpl in Hnodup. apply NoDup_cons in Hnodup as [Hnot _].
      apply Hnot. rewrite Hi, <- Hvalue.
      apply list_elem_of_fmap. eauto.
    + apply elem_of_cons in Hin as [-> | Hin]; [contradiction|].
      simpl in Hnodup. apply NoDup_cons in Hnodup as [_ Hnodup].
      apply IH; assumption.
Qed.

(** X16: when no two templates have the same value, every option the
    auto-complete offers is rendered as the key of the template that
    matched what was typed: [renderOption] gives back exactly that key. *)
Theorem renderOption_gives_the_matching_key :
  forall (toLowerCase : jsstring -> jsstring)
         (promptTemplate : list PromptTemplate.t) (s : View)
         (option : SelectOption.t),
    NoDup (PromptTemplate.value <$> promptTemplate) ->
    option ∈ searchOptions toLowerCase promptTemplate s ->
    exists item,
      item ∈ promptTemplate
      /\ includes (toLowerCase (PromptTemplate.key item))
           (toLowerCase (substring (prompt s) 1)) = true
      /\ SelectOption.label option = PromptTemplate.value item
      /\ renderOption promptTemplate option = [PromptTemplate.key item].
Proof.
  intros toLowerCase templates s option Hnodup Hin.
  unfold searchOptions in Hin.
  destruct (startsWith (prompt s) (lit "/")); [|inversion Hin].
  apply list_elem_of_fmap in Hin as (item & -> & Hitem).
  apply list_elem_of_filter in Hitem as [Hmatch Hitem].
  exists item. split; [exact Hitem|]. split; [exact Hmatch|].
  split; [reflexivity|].
  unfold renderOption. apply renderOption_from_first; auto.
Qed.

(** ** The set-up of the view *)

Lemma resetLoading_fold (l : list Message.t) :
  forall (n : nat) (s : View) (before : list Message.t),
    dataSources s = before ++ l ->
    length before = n ->
    let s' :=
      foldl (fun s' '(index, item) =>
               if bool_decide (Message.loading item = Some true)
               then updateChatSome (Z.of_nat index) Partial.loading_false s'
               else s')
            s (imap (fun i x => ((n + i)%nat, x)) l) in
    dataSources s'
    = before
      ++ map (fun m => if bool_decide (Message.loading m = Some true)
                       then notLoading m else m) l
    /\ loading s' = loading s /\ prompt s' = prompt s
    /\ usingContext s' = usingContext s /\ controller s' = controller s
    /\ aborted s' = aborted s /\ pending s' = pending s
    /\ requests s' = requests s.
Proof.
  induction l as [|x l IH]; intros n s before Hdata Hlen.
  - cbv zeta. simpl. rewrite Hdata. auto 12.
  - cbv zeta. rewrite imap_cons. simpl foldl.
    rewrite (imap_ext _ (fun i y => ((S n + i)%nat, y)))
      by (intros; simpl; f_equal; lia).
    rewrite Nat.add_0_r.
    set (s1 := if bool_decide (Message.loading x = Some true)
               then updateChatSome (Z.of_nat n) Partial.loading_false s
               else s).
    assert (H1 : dataSources s1
                 = (before
                    ++ [if bool_decide (Message.loading x = Some true)
                        then notLoading x else x]) ++ l
                 /\ loading s1 = loading s /\ prompt s1 = prompt s
                 /\ usingContext s1 = usingContext s
                 /\ controller s1 = controller s /\ aborted s1 = aborted s
                 /\ pending s1 = pending s /\ requests s1 = requests s).
    { subst s1. case_bool_decide as Hx.
      - cbn [updateChatSome emit set_dataSources dataSources loading prompt
             usingContext controller aborted pending].
        rewrite Hdata, updateChatSome_loading_false.
        unfold markNotLoading.
        destruct (Z.leb_spec 0 (Z.of_nat n)); [|lia].
        rewrite Nat2Z.id, alter_app_r_alt, Hlen, Nat.sub_diag by lia.
        rewrite <- app_assoc.
        repeat split; try reflexivity.
        unfold requests. simpl. rewrite omap_app. simpl.
        apply app_nil_r.
      - rewrite Hdata, <- app_assoc. auto 12. }
    destruct H1 as (Hd1 & Hl1 & Hp1 & Hu1 & Hc1 & Ha1 & Hn1 & Hr1).
    specialize (IH (S n) s1 _ Hd1). cbv zeta in IH.
    destruct IH as (IHd & IHl & IHp & IHu & IHc & IHa & IHn & IHr).
    { rewrite length_app. simpl. lia. }
    rewrite IHd, IHl, IHp, IHu, IHc, IHa, IHn, IHr, <- app_assoc.
    simpl. auto 12.
Qed.

(** X17: when the view is set up over a stored transcript, every message
    that was stored as loading is marked as not loading and nothing else
    of the transcript changes, so no message of the view is loading; the
    view itself is not loading, the prompt is empty, no request has been
    issued, and [controller] refers to the first controller, not
    aborted. *)
Theorem setup_leaves_nothing_loading :
  forall (usingContext0 : bool) (data : list Message.t),
    let s := setup usingContext0 data in
    dataSources s
    = map (fun m => if bool_decide (Message.loading m = Some true)
                    then notLoading m else m) data
    /\ Forall (fun m => Message.loading m ≠ Some true) (dataSources s)
    /\ map Message.text (dataSources s) = map Message.text data
    /\ loading s = false /\ prompt s = []
    /\ usingContext s = usingContext0
    /\ requests s = [] /\ pending s = 0%nat
    /\ controller s = 0%nat /\ aborted s = [false].
Proof.
  intros u data s.
  pose proof (resetLoading_fold data 0
                (newAbortController (mkView data [] false u 0%nat [] 0%nat []))
                [] eq_refl eq_refl) as H.
  cbv zeta in H.
  change (foldl _ _ _) with s in H.
  destruct H as (Hd & Hl & Hp & Hu & Hc & Ha & Hn & Hr).
  rewrite Hd, Hl, Hp, Hu, Hc, Ha, Hn, Hr. simpl app.
  split; [reflexivity|]. split; [|split].
  - apply Forall_forall. intros m Hm.
    apply list_elem_of_fmap in Hm as (m0 & -> & _).
    case_bool_decide as Hm0; [discriminate | exact Hm0].
  - rewrite <- list_fmap_compose. apply list_fmap_ext.
    intros i m0 _. simpl. case_bool_decide; reflexivity.
  - repeat split; reflexivity.
Qed.

(** ** Cancelled runs *)



(** ** The further properties at sample inputs *)

Ltac not_blank :=
  let H := fresh in
  let Hhead := fresh in
  intros H; inversion H as [|? ? Hhead _]; vm_compute in Hhead; discriminate.

Ltac quiet_events :=
  unfold noContinuation, Sample2.events;
  repeat (apply List.Forall_cons;
          [ let d := fresh in
            let H := fresh in
            intros d H; vm_compute in H;
            first [discriminate | inversion H; subst; reflexivity]
          | ]);
  apply List.Forall_nil.

(** The sample send, streamed and fulfilled, shows the decoded text. *)
Lemma send_leaves_the_last_chunk_witness :
  map Message.text
    (dataSources
       (onConversation_run true Sample2.parse Sample.t (lit "10:02")
          (lit "10:02") Sample2.events Fulfilled Sample.idle).2)
  = [lit "q"; lit "a"; lit "hi"; lit "Hello"].
Proof.
  destruct (send_leaves_the_last_chunk true Sample2.parse Sample.t
              (lit "10:02") (lit "10:02") Sample2.events Sample.idle)
    as (_ & H & _).
  - reflexivity.
  - not_blank.
  - quiet_events.
  - rewrite H. vm_compute. reflexivity.
Defined.

(** The send after the sample send continues conversation c1 from m2. *)
Lemma next_send_continues_the_reply_witness :
  last
    (requests
       (onConversation (lit "10:05") (lit "10:05")
          (set_prompt (lit "more")
             (onConversation_run true Sample2.parse Sample.t (lit "10:02")
                (lit "10:02") Sample2.events Fulfilled Sample.idle).2)).2)
  = Some (Request.mk (lit "more")
            (ConversationRequest.mk (Some (lit "c1")) (Some (lit "m2")))
            2%nat).
Proof.
  rewrite (next_send_continues_the_reply true Sample2.parse Sample.t
             (lit "10:02") (lit "10:02") (lit "10:05") (lit "10:05")
             (lit "10:04") Sample2.events Sample.idle Sample2.data
             (lit "more")).
  - rewrite last_snoc. vm_compute. reflexivity.
  - reflexivity.
  - not_blank.
  - vm_compute. reflexivity.
  - reflexivity.
  - not_blank.
Defined.

(** The sample send failing before any chunk: the error under '思考中'. *)
Lemma failed_send_shows_the_error_witness :
  map (fun m => (Message.text m, Message.error m))
    (dataSources
       (onConversation_run true Sample2.parse Sample.t (lit "10:02")
          (lit "10:02") [] (Rejected (lit "10:03") Sample.failure)
          Sample.idle).2)
  = [(lit "q", false); (lit "a", false); (lit "hi", false);
     (thinking ++ [LF] ++ lit "[Network Error]", false)].
Proof.
  destruct (failed_send_shows_the_error true Sample2.parse Sample.t
              (lit "10:02") (lit "10:02") (lit "10:03") [] Sample.failure
              Sample.idle) as (H & _).
  - reflexivity.
  - not_blank.
  - quiet_events.
  - vm_compute. discriminate.
  - rewrite H. vm_compute. reflexivity.
Defined.

(** Regenerating the stored reply of the sample transcript. *)
Lemma regenerate_replaces_one_message_witness :
  map Message.text
    (dataSources
       (onRegenerate_run true Sample2.parse Sample.t 1 (lit "10:02")
          Sample2.events Fulfilled Sample.idle).2)
  = [lit "q"; lit "Hello"].
Proof.
  destruct (regenerate_replaces_one_message true Sample2.parse Sample.t 1
              (lit "10:02") Sample2.events Sample.idle
              (Message.mk (lit "10:01") (lit "a") false false (Some false)
                 (Some (ConversationRequest.mk (Some (lit "c0"))
                          (Some (lit "m0"))))
                 (RequestOptions.mk (lit "q")
                    (Some ConversationRequest.empty))))
    as (_ & H & _).
  - reflexivity.
  - vm_compute. reflexivity.
  - quiet_events.
  - rewrite H. vm_compute. reflexivity.
Defined.

(** Regenerating the reply of the sample send sends its request again. *)
Lemma regenerate_resends_the_request_witness :
  exists opts,
    requests
      (onRegenerate 3 (lit "10:06")
         (onConversation_run true Sample2.parse Sample.t (lit "10:02")
            (lit "10:02") Sample2.events Fulfilled Sample.idle).2).2
    = [Request.mk (lit "hi") opts 1%nat; Request.mk (lit "hi") opts 2%nat].
Proof.
  destruct (regenerate_resends_the_request true Sample2.parse Sample.t
              (lit "10:02") (lit "10:02") (lit "10:06") Sample2.events
              Sample.idle) as (opts & k & _ & H).
  - reflexivity.
  - not_blank.
  - quiet_events.
  - exists opts. exact H.
Defined.

(** Stopping the sample send, then sending again. *)
Lemma stop_then_send_again_witness :
  aborted
    (onConversation (lit "10:05") (lit "10:05")
       (set_prompt (lit "more")
          (handleStop
             (onConversation (lit "10:02") (lit "10:02") Sample.idle).2))).2
  = [false; true; false].
Proof.
  destruct (stop_then_send_again (lit "10:02") (lit "10:02") (lit "10:05")
              (lit "10:05") (lit "more") Sample.idle)
    as (_ & _ & _ & H & _).
  - reflexivity.
  - not_blank.
  - not_blank.
  - exact H.
Defined.

(** Clearing the sample transcript, then sending. *)
Lemma clear_then_send_starts_afresh_witness :
  requests
    (onConversation (lit "10:05") (lit "10:05")
       (set_prompt (lit "more")
          (handleClear_onPositiveClick (handleClear Sample.idle)))).2
  = [Request.mk (lit "more") ConversationRequest.empty 1%nat].
Proof.
  destruct (clear_then_send_starts_afresh (lit "10:05") (lit "10:05")
              (lit "more") Sample.idle) as (_ & _ & _ & _ & H).
  - reflexivity.
  - not_blank.
  - exact H.
Defined.

(** The line cut for length, then the complete line. *)
Lemma continuation_appends_to_the_cut_text_witness :
  Message.text
    <$> at_index
          (dataSources
             (onConversation_onDownloadProgress true Sample2.parse
                (onConversation_onDownloadProgress true Sample2.parse
                   Sample.closure (lit "10:03") Sample.buffer
                   Sample.sending).1
                (lit "10:04") Sample2.line
                (onConversation_onDownloadProgress true Sample2.parse
                   Sample.closure (lit "10:03") Sample.buffer
                   Sample.sending).2).2)
          3
  = Some (lit "HelHello").
Proof.
  destruct (continuation_appends_to_the_cut_text Sample2.parse 1
              Sample.closure (lit "10:03") (lit "10:04") Sample.buffer
              Sample2.line Sample.sending Sample.data Sample2.data)
    as (H & _).
  - vm_compute. reflexivity.
  - reflexivity.
  - vm_compute. reflexivity.
  - vm_compute. discriminate.
  - eexists. vm_compute. reflexivity.
  - change (lastIndex Sample.sending) with 3 in H. rewrite H. reflexivity.
Defined.

(** A slash alone offers both sample templates. *)
Lemma searchOptions_slash_offers_everything_witness :
  map SelectOption.label
    (searchOptions Sample2.toLowerCase Sample2.templates
       (set_prompt (lit "/") Sample.idle))
  = [lit "Translate what I write."; lit "Answer in verse."].
Proof.
  rewrite (searchOptions_slash_offers_everything Sample2.toLowerCase
             Sample2.templates (set_prompt (lit "/") Sample.idle)).
  - reflexivity.
  - reflexivity.
  - reflexivity.
Defined.

(** Typing /po offers the poet, rendered by its key. *)
Lemma renderOption_gives_the_matching_key_witness :
  exists item,
    item ∈ Sample2.templates
    /\ renderOption Sample2.templates
         (SelectOption.mk (lit "Answer in verse.") (lit "Answer in verse."))
       = [PromptTemplate.key item].
Proof.
  destruct (renderOption_gives_the_matching_key Sample2.toLowerCase
              Sample2.templates (set_prompt (lit "/po") Sample.idle)
              (SelectOption.mk (lit "Answer in verse.")
                 (lit "Answer in verse.")))
    as (item & Hin & _ & _ & H).
  - repeat constructor; vm_compute; intros Hin;
      repeat (apply elem_of_cons in Hin as [Hin|Hin]; [discriminate|]);
      inversion Hin.
  - vm_compute. apply list_elem_of_here.
  - exists item. split; [exact Hin | exact H].
Defined.


(** The anomaly the script's comment tells of: with two templates of the
    same value, the option of the second is rendered by the key of the
    first. *)
Example renderOption_with_equal_values :
  renderOption
    [PromptTemplate.mk (lit "A") (lit "same");
     PromptTemplate.mk (lit "B") (lit "same")]
    (SelectOption.mk (lit "same") (lit "same"))
  = [lit "A"].
Proof. reflexivity. Qed.
